(** * Trending Translators Dashboard: data shaping and aggregation

    A shallow embedding of [dashboard.py]: the loader, [prepare_data], the
    leaderboard pipeline, the search filter and the global summary of [main],
    with [main] itself as a program that emits the sequence of Streamlit
    calls it performs and may stop on an uncaught exception.

    Modelling choices.
    - Python integers are [Z].  A column of integers has the dtype pandas
      infers for it; the sum of an int64 column wraps modulo 2^64, maxima
      and comparisons are the mathematical ones.
    - Translator names, titles and the search term are [string]s holding
      the UTF-8 bytes of the Python text; [lower] is [str.lower()] on the
      code points.
    - The document is a JSON array of records that carry the keys and the
      integer fields the code reads; a document of another shape is not an
      input of the model.
    - The calls to Streamlit and plotly are recorded in the order they are
      made; what these libraries do with the values they are given,
      including whether they accept them, is not modelled.  The properties
      of [main] proved below concern the runs that stop before the
      leaderboard is displayed and the calls made up to the selector.
    - A pandas frame is its list of column labels together with its rows; the
      frame built from an empty list of records has no columns at all, and
      selecting a column that is absent raises [KeyError].
    - [sort_values] uses pandas' default (unstable) sort: only its contract is
      known, so the pipeline is parameterised by a sorting function that
      returns a permutation of its argument ordered by descending total. *)

From Stdlib Require Import Ascii String DecimalString.
From Stdlib Require Import List ZArith Lia Bool Arith PeanoNat.
From Stdlib Require Import Permutation Sorted.
Import ListNotations.

Local Open Scope string_scope.
Local Open Scope list_scope.

(** ** Input data: the parsed JSON document *)

(** A [pid] is a JSON string or a JSON integer. *)
Inductive Pid : Type :=
| PidStr (s : string)
| PidInt (n : Z).

Definition Pid_eq_dec (a b : Pid) : {a = b} + {a <> b}.
Proof. decide equality; [apply string_dec | apply Z.eq_dec]. Defined.


Record PostRecord : Type := mkPost {
  post_title : string;
  post_downloads : Z;
  post_pid : Pid
}.

Record ResultRecord : Type := mkResult {
  res_rank : Z;
  res_translator : string;
  res_downloads : Z;
  res_posts : list PostRecord
}.

(** ** The flat table *)

(** One dictionary appended by [prepare_data]; the field names are the
    column labels with the blanks removed. *)
Record FlatRow : Type := mkRow {
  Rank : Z;
  Translator : string;
  TotalDownloads : Z;
  PostTitle : string;
  PostDownloads : Z;
  PID : Pid
}.

Record DataFrame : Type := mkFrame {
  columns : list string;
  rows : list FlatRow
}.

Definition flat_columns : list string :=
  ["Rank"; "Translator"; "Total Downloads"; "Post Title"; "Post Downloads"; "PID"].

(** [pd.DataFrame(data)] for a list of dictionaries: the columns are the keys
    of the dictionaries, so an empty list gives a frame without columns. *)
Definition pd_DataFrame (data : list FlatRow) : DataFrame :=
  match data with
  | [] => mkFrame [] []
  | _ :: _ => mkFrame flat_columns data
  end.

(** The body of the inner loop: [data.append({...})]. *)
Definition append_post (result : ResultRecord) (total_downloads : Z)
    (data : list FlatRow) (post : PostRecord) : list FlatRow :=
  data ++ [ {| Rank := res_rank result;
               Translator := res_translator result;
               TotalDownloads := total_downloads;
               PostTitle := post_title post;
               PostDownloads := post_downloads post;
               PID := post_pid post |} ].

(** The body of the outer loop. *)
Definition append_result (data : list FlatRow) (result : ResultRecord)
    : list FlatRow :=
  let total_downloads := res_downloads result in
  fold_left (append_post result total_downloads) (res_posts result) data.

(** The list [data] when both loops have run. *)
Definition prepare_rows (results : list ResultRecord) : list FlatRow :=
  fold_left append_result results [].

Definition prepare_data (results : list ResultRecord) : DataFrame :=
  pd_DataFrame (prepare_rows results).

(** ** Exceptions and the pandas operations used by [main] *)

Inductive Exn : Type :=
| KeyError (key : string)
| IndexError
| JSONDecodeError.

Definition Result (A : Type) : Type := (Exn + A)%type.

Class Monad (m : Type -> Type) : Type := {
  ret : forall {A : Type}, A -> m A;
  bind : forall {A B : Type}, m A -> (A -> m B) -> m B
}.

Notation "x <- c ;; k" := (bind c (fun x => k))
  (at level 61, c at next level, right associativity).
Notation "c ;; k" := (bind c (fun _ => k))
  (at level 61, right associativity).

#[export] Instance Result_Monad : Monad Result := {
  ret := fun A a => inr a;
  bind := fun A B r k => match r with inl e => inl e | inr a => k a end
}.

Definition raise {A : Type} (e : Exn) : Result A := inl e.

(** [df[label]]: the values of one column, row by row. *)
Definition get_column {A : Type} (df : DataFrame) (label : string)
    (field : FlatRow -> A) : Result (list A) :=
  if in_dec string_dec label (columns df)
  then ret (map field (rows df))
  else raise (KeyError label).

(** [Series.unique()]: the distinct values in order of first appearance. *)
Fixpoint unique (seen : list string) (l : list string) : list string :=
  match l with
  | [] => []
  | x :: l' =>
      if in_dec string_dec x seen then unique seen l'
      else x :: unique (x :: seen) l'
  end.

Definition nunique (l : list string) : nat := List.length (unique [] l).

(** Insertion of [x] into a list ordered by [le], after the leading
    elements [y] with [le y x]. *)
Fixpoint insert_by {A : Type} (le : A -> A -> bool) (x : A) (l : list A) : list A :=
  match l with
  | [] => [x]
  | y :: l' => if le y x then y :: insert_by le x l' else x :: y :: l'
  end.

Definition sort_by {A : Type} (le : A -> A -> bool) (l : list A) : list A :=
  fold_right (insert_by le) [] l.

(** The aggregate [max] of one group; a group is never empty. *)
Definition column_max (values : list Z) : Z :=
  match values with
  | [] => 0%Z
  | v :: vs => fold_left Z.max vs v
  end.

(** One row of [df.groupby("Translator")[["Rank", "Total Downloads"]].max()
    .reset_index()]. *)
Record GroupRow : Type := mkGroup {
  g_Translator : string;
  g_Rank : Z;
  g_TotalDownloads : Z
}.

Definition group_of (key : string) (data : list FlatRow) : list FlatRow :=
  filter (fun r => String.eqb (Translator r) key) data.

Definition aggregate_max (data : list FlatRow) (key : string) : GroupRow :=
  let members := group_of key data in
  {| g_Translator := key;
     g_Rank := column_max (map Rank members);
     g_TotalDownloads := column_max (map TotalDownloads members) |}.

(** [groupby] sorts the group keys (its default [sort=True]). *)
Definition group_keys (data : list FlatRow) : list string :=
  sort_by String.leb (unique [] (map Translator data)).

Definition groupby_max (df : DataFrame) : Result (list GroupRow) :=
  get_column df "Translator" Translator ;;
  get_column df "Rank" Rank ;;
  get_column df "Total Downloads" TotalDownloads ;;
  ret (map (aggregate_max (rows df)) (group_keys (rows df))).

(** One row of the leaderboard as displayed, columns in the order
    [["Index", "Rank", "Translator", "Total Downloads"]]. *)
Record LeaderRow : Type := mkLeader {
  lb_Index : nat;
  lb_Rank : Z;
  lb_Translator : string;
  lb_TotalDownloads : Z
}.

(** [translator_table["Index"] = range(1, len(translator_table) + 1)]
    followed by the column selection. *)
Definition assign_index (sorted : list GroupRow) : list LeaderRow :=
  map (fun ig => {| lb_Index := fst ig;
                    lb_Rank := g_Rank (snd ig);
                    lb_Translator := g_Translator (snd ig);
                    lb_TotalDownloads := g_TotalDownloads (snd ig) |})
      (combine (seq 1 (List.length sorted)) sorted).

(** [DataFrame.duplicated(subset=["PID"])] with [keep="first"]: a row is
    marked when its key was met in an earlier row. *)
Fixpoint duplicated (seen : list Pid) (keys : list Pid) : list bool :=
  match keys with
  | [] => []
  | k :: keys' =>
      (if in_dec Pid_eq_dec k seen then true else false)
        :: duplicated (k :: seen) keys'
  end.

(** Boolean indexing [df[~mask]]. *)
Fixpoint drop_marked {A : Type} (l : list A) (mask : list bool) : list A :=
  match l, mask with
  | x :: l', b :: mask' => if b then drop_marked l' mask' else x :: drop_marked l' mask'
  | _, _ => []
  end.

(** [df.drop_duplicates(subset=["PID"])]; an empty frame is copied as it
    is, before the subset is looked at. *)
Definition drop_duplicates_PID (df : DataFrame) : Result DataFrame :=
  match rows df with
  | [] => ret df
  | _ :: _ =>
      keys <- get_column df "PID" PID ;;
      ret (mkFrame (columns df) (drop_marked (rows df) (duplicated [] keys)))
  end.

(** The exact sum of a list of integers. *)
Definition column_sum (values : list Z) : Z := fold_left Z.add values 0%Z.

(** The dtype of a column built from Python integers: [int64] when they
    all fit, [uint64] when some exceed [int64] and none is negative,
    [object] (the Python integers themselves) otherwise. *)
Inductive IntDtype : Type :=
| dtype_int64
| dtype_uint64
| dtype_object.

Definition int64_min : Z := (- 2 ^ 63)%Z.
Definition int64_max : Z := (2 ^ 63 - 1)%Z.
Definition uint64_max : Z := (2 ^ 64 - 1)%Z.

Definition infer_int_dtype (values : list Z) : IntDtype :=
  if existsb (fun v => (v <? int64_min) || (uint64_max <? v))%Z values
  then dtype_object
  else if existsb (fun v => (int64_max <? v)%Z) values
  then (if existsb (fun v => (v <? 0)%Z) values
        then dtype_object else dtype_uint64)
  else dtype_int64.

Definition wrap_int64 (z : Z) : Z :=
  ((z - int64_min) mod 2 ^ 64 + int64_min)%Z.

Definition wrap_uint64 (z : Z) : Z := (z mod 2 ^ 64)%Z.

(** One addition in the arithmetic of the dtype. *)
Definition add_as (dtype : IntDtype) (a b : Z) : Z :=
  match dtype with
  | dtype_int64 => wrap_int64 (a + b)
  | dtype_uint64 => wrap_uint64 (a + b)
  | dtype_object => (a + b)%Z
  end.

(** [Series.sum()] of an integer column. *)
Definition series_sum (dtype : IntDtype) (values : list Z) : Z :=
  fold_left (add_as dtype) values 0%Z.

(** The dtype of the column ["Post Downloads"]: it is inferred from all
    the rows when the frame is built, and a selection of rows keeps it. *)
Definition downloads_dtype (df : DataFrame) : IntDtype :=
  infer_int_dtype (map PostDownloads (rows df)).

(** Lines 138-141 of [main]: the global summary. *)
Definition global_summary (df : DataFrame) : Result (nat * Z) :=
  unique_posts <- drop_duplicates_PID df ;;
  names <- get_column df "Translator" Translator ;;
  let total_translators := nunique names in
  downloads <- get_column unique_posts "Post Downloads" PostDownloads ;;
  let total_downloads := series_sum (downloads_dtype df) downloads in
  ret (total_translators, total_downloads).

(** ** Python strings

    A Python [str] is held as the bytes of its UTF-8 encoding: equality,
    ordering and the substring test on the bytes are those on the code
    points.  [str.lower()] works on the code points: every character is
    replaced by its lowercase mapping, except GREEK CAPITAL LETTER SIGMA,
    whose lowercase depends on the characters around it (CPython,
    Objects/unicodeobject.c: [do_lower], [handle_capital_sigma]).  The three
    tables are those of the Unicode Character Database 14.0 that CPython
    3.11 carries. *)

Definition byte_val (b : ascii) : Z := Z.of_N (N_of_ascii b).

Definition byte_of (z : Z) : ascii := ascii_of_N (Z.to_N z).

(** A decoded character: a code point, or a byte that is not part of a
    well-formed UTF-8 sequence (no Python string has one). *)
Inductive uchar : Type :=
| Cp (c : Z)
| Raw (b : ascii).

Definition is_continuation (b : ascii) : bool :=
  ((128 <=? byte_val b) && (byte_val b <? 192))%Z.

Definition tail_bits (b : ascii) : Z := (byte_val b - 128)%Z.

Fixpoint utf8_decode (s : string) : list uchar :=
  match s with
  | EmptyString => []
  | String b0 s1 =>
      let v0 := byte_val b0 in
      if (v0 <? 128)%Z then Cp v0 :: utf8_decode s1
      else
        match s1 with
        | String b1 s2 =>
            let c2 := ((v0 - 192) * 64 + tail_bits b1)%Z in
            if ((192 <=? v0) && (v0 <? 224) && is_continuation b1
                && (128 <=? c2))%Z
            then Cp c2 :: utf8_decode s2
            else
              match s2 with
              | String b2 s3 =>
                  let c3 := ((v0 - 224) * 4096 + tail_bits b1 * 64
                             + tail_bits b2)%Z in
                  if ((224 <=? v0) && (v0 <? 240) && is_continuation b1
                      && is_continuation b2 && (2048 <=? c3)
                      && negb ((55296 <=? c3) && (c3 <=? 57343)))%Z
                  then Cp c3 :: utf8_decode s3
                  else
                    match s3 with
                    | String b3 s4 =>
                        let c4 := ((v0 - 240) * 262144 + tail_bits b1 * 4096
                                   + tail_bits b2 * 64 + tail_bits b3)%Z in
                        if ((240 <=? v0) && (v0 <? 248) && is_continuation b1
                            && is_continuation b2 && is_continuation b3
                            && (65536 <=? c4) && (c4 <=? 1114111))%Z
                        then Cp c4 :: utf8_decode s4
                        else Raw b0 :: utf8_decode s1
                    | EmptyString => Raw b0 :: utf8_decode s1
                    end
              | EmptyString => Raw b0 :: utf8_decode s1
              end
        | EmptyString => Raw b0 :: utf8_decode s1
        end
  end.

Definition utf8_encode_char (u : uchar) : string :=
  match u with
  | Raw b => String b EmptyString
  | Cp c =>
      if (c <? 128)%Z then String (byte_of c) EmptyString
      else if (c <? 2048)%Z then
        String (byte_of (192 + c / 64))
          (String (byte_of (128 + c mod 64)) EmptyString)
      else if (c <? 65536)%Z then
        String (byte_of (224 + c / 4096))
          (String (byte_of (128 + (c / 64) mod 64))
             (String (byte_of (128 + c mod 64)) EmptyString))
      else
        String (byte_of (240 + c / 262144))
          (String (byte_of (128 + (c / 4096) mod 64))
             (String (byte_of (128 + (c / 64) mod 64))
                (String (byte_of (128 + c mod 64)) EmptyString)))
  end.

Fixpoint utf8_encode (l : list uchar) : string :=
  match l with
  | [] => EmptyString
  | u :: l' => (utf8_encode_char u ++ utf8_encode l')%string
  end.

(** The string of the given code points. *)
Definition str_of_codepoints (l : list Z) : string := utf8_encode (map Cp l).

(** The simple lowercase mappings, as runs (first, last, step, offset):
    the code points [first], [first + step], ..., [last] map to themselves
    plus [offset]. *)
Definition lower_table : list (Z * Z * Z * Z) :=
  [ (65, 90, 1, 32); (192, 214, 1, 32); (216, 222, 1, 32);
    (256, 302, 2, 1); (306, 310, 2, 1); (313, 327, 2, 1);
    (330, 374, 2, 1); (376, 376, 1, -121); (377, 381, 2, 1);
    (385, 385, 1, 210); (386, 388, 2, 1); (390, 390, 1, 206);
    (391, 391, 1, 1); (393, 394, 1, 205); (395, 395, 1, 1);
    (398, 398, 1, 79); (399, 399, 1, 202); (400, 400, 1, 203);
    (401, 401, 1, 1); (403, 403, 1, 205); (404, 404, 1, 207);
    (406, 406, 1, 211); (407, 407, 1, 209); (408, 408, 1, 1);
    (412, 412, 1, 211); (413, 413, 1, 213); (415, 415, 1, 214);
    (416, 420, 2, 1); (422, 422, 1, 218); (423, 423, 1, 1);
    (425, 425, 1, 218); (428, 428, 1, 1); (430, 430, 1, 218);
    (431, 431, 1, 1); (433, 434, 1, 217); (435, 437, 2, 1);
    (439, 439, 1, 219); (440, 440, 1, 1); (444, 444, 1, 1);
    (452, 452, 1, 2); (453, 453, 1, 1); (455, 455, 1, 2);
    (456, 456, 1, 1); (458, 458, 1, 2); (459, 475, 2, 1);
    (478, 494, 2, 1); (497, 497, 1, 2); (498, 500, 2, 1);
    (502, 502, 1, -97); (503, 503, 1, -56); (504, 542, 2, 1);
    (544, 544, 1, -130); (546, 562, 2, 1); (570, 570, 1, 10795);
    (571, 571, 1, 1); (573, 573, 1, -163); (574, 574, 1, 10792);
    (577, 577, 1, 1); (579, 579, 1, -195); (580, 580, 1, 69);
    (581, 581, 1, 71); (582, 590, 2, 1); (880, 882, 2, 1);
    (886, 886, 1, 1); (895, 895, 1, 116); (902, 902, 1, 38);
    (904, 906, 1, 37); (908, 908, 1, 64); (910, 911, 1, 63);
    (913, 929, 1, 32); (931, 939, 1, 32); (975, 975, 1, 8);
    (984, 1006, 2, 1); (1012, 1012, 1, -60); (1015, 1015, 1, 1);
    (1017, 1017, 1, -7); (1018, 1018, 1, 1); (1021, 1023, 1, -130);
    (1024, 1039, 1, 80); (1040, 1071, 1, 32); (1120, 1152, 2, 1);
    (1162, 1214, 2, 1); (1216, 1216, 1, 15); (1217, 1229, 2, 1);
    (1232, 1326, 2, 1); (1329, 1366, 1, 48); (4256, 4293, 1, 7264);
    (4295, 4295, 1, 7264); (4301, 4301, 1, 7264); (5024, 5103, 1, 38864);
    (5104, 5109, 1, 8); (7312, 7354, 1, -3008); (7357, 7359, 1, -3008);
    (7680, 7828, 2, 1); (7838, 7838, 1, -7615); (7840, 7934, 2, 1);
    (7944, 7951, 1, -8); (7960, 7965, 1, -8); (7976, 7983, 1, -8);
    (7992, 7999, 1, -8); (8008, 8013, 1, -8); (8025, 8031, 2, -8);
    (8040, 8047, 1, -8); (8072, 8079, 1, -8); (8088, 8095, 1, -8);
    (8104, 8111, 1, -8); (8120, 8121, 1, -8); (8122, 8123, 1, -74);
    (8124, 8124, 1, -9); (8136, 8139, 1, -86); (8140, 8140, 1, -9);
    (8152, 8153, 1, -8); (8154, 8155, 1, -100); (8168, 8169, 1, -8);
    (8170, 8171, 1, -112); (8172, 8172, 1, -7); (8184, 8185, 1, -128);
    (8186, 8187, 1, -126); (8188, 8188, 1, -9); (8486, 8486, 1, -7517);
    (8490, 8490, 1, -8383); (8491, 8491, 1, -8262); (8498, 8498, 1, 28);
    (8544, 8559, 1, 16); (8579, 8579, 1, 1); (9398, 9423, 1, 26);
    (11264, 11311, 1, 48); (11360, 11360, 1, 1); (11362, 11362, 1, -10743);
    (11363, 11363, 1, -3814); (11364, 11364, 1, -10727); (11367, 11371, 2, 1);
    (11373, 11373, 1, -10780); (11374, 11374, 1, -10749); (11375, 11375, 1, -10783);
    (11376, 11376, 1, -10782); (11378, 11378, 1, 1); (11381, 11381, 1, 1);
    (11390, 11391, 1, -10815); (11392, 11490, 2, 1); (11499, 11501, 2, 1);
    (11506, 11506, 1, 1); (42560, 42604, 2, 1); (42624, 42650, 2, 1);
    (42786, 42798, 2, 1); (42802, 42862, 2, 1); (42873, 42875, 2, 1);
    (42877, 42877, 1, -35332); (42878, 42886, 2, 1); (42891, 42891, 1, 1);
    (42893, 42893, 1, -42280); (42896, 42898, 2, 1); (42902, 42920, 2, 1);
    (42922, 42922, 1, -42308); (42923, 42923, 1, -42319); (42924, 42924, 1, -42315);
    (42925, 42925, 1, -42305); (42926, 42926, 1, -42308); (42928, 42928, 1, -42258);
    (42929, 42929, 1, -42282); (42930, 42930, 1, -42261); (42931, 42931, 1, 928);
    (42932, 42946, 2, 1); (42948, 42948, 1, -48); (42949, 42949, 1, -42307);
    (42950, 42950, 1, -35384); (42951, 42953, 2, 1); (42960, 42960, 1, 1);
    (42966, 42968, 2, 1); (42997, 42997, 1, 1); (65313, 65338, 1, 32);
    (66560, 66599, 1, 40); (66736, 66771, 1, 40); (66928, 66938, 1, 39);
    (66940, 66954, 1, 39); (66956, 66962, 1, 39); (66964, 66965, 1, 39);
    (68736, 68786, 1, 64); (71840, 71871, 1, 32); (93760, 93791, 1, 32);
    (125184, 125217, 1, 34) ]%Z.

(** The case-ignorable code points, as ranges (first, last). *)
Definition case_ignorable_table : list (Z * Z) :=
  [ (39, 39); (46, 46); (58, 58); (94, 94);
    (96, 96); (168, 168); (173, 173); (175, 175);
    (180, 180); (183, 184); (688, 879); (884, 885);
    (890, 890); (900, 901); (903, 903); (1155, 1161);
    (1369, 1369); (1375, 1375); (1425, 1469); (1471, 1471);
    (1473, 1474); (1476, 1477); (1479, 1479); (1524, 1524);
    (1536, 1541); (1552, 1562); (1564, 1564); (1600, 1600);
    (1611, 1631); (1648, 1648); (1750, 1757); (1759, 1768);
    (1770, 1773); (1807, 1807); (1809, 1809); (1840, 1866);
    (1958, 1968); (2027, 2037); (2042, 2042); (2045, 2045);
    (2070, 2093); (2137, 2139); (2184, 2184); (2192, 2193);
    (2200, 2207); (2249, 2306); (2362, 2362); (2364, 2364);
    (2369, 2376); (2381, 2381); (2385, 2391); (2402, 2403);
    (2417, 2417); (2433, 2433); (2492, 2492); (2497, 2500);
    (2509, 2509); (2530, 2531); (2558, 2558); (2561, 2562);
    (2620, 2620); (2625, 2626); (2631, 2632); (2635, 2637);
    (2641, 2641); (2672, 2673); (2677, 2677); (2689, 2690);
    (2748, 2748); (2753, 2757); (2759, 2760); (2765, 2765);
    (2786, 2787); (2810, 2815); (2817, 2817); (2876, 2876);
    (2879, 2879); (2881, 2884); (2893, 2893); (2901, 2902);
    (2914, 2915); (2946, 2946); (3008, 3008); (3021, 3021);
    (3072, 3072); (3076, 3076); (3132, 3132); (3134, 3136);
    (3142, 3144); (3146, 3149); (3157, 3158); (3170, 3171);
    (3201, 3201); (3260, 3260); (3263, 3263); (3270, 3270);
    (3276, 3277); (3298, 3299); (3328, 3329); (3387, 3388);
    (3393, 3396); (3405, 3405); (3426, 3427); (3457, 3457);
    (3530, 3530); (3538, 3540); (3542, 3542); (3633, 3633);
    (3636, 3642); (3654, 3662); (3761, 3761); (3764, 3772);
    (3782, 3782); (3784, 3789); (3864, 3865); (3893, 3893);
    (3895, 3895); (3897, 3897); (3953, 3966); (3968, 3972);
    (3974, 3975); (3981, 3991); (3993, 4028); (4038, 4038);
    (4141, 4144); (4146, 4151); (4153, 4154); (4157, 4158);
    (4184, 4185); (4190, 4192); (4209, 4212); (4226, 4226);
    (4229, 4230); (4237, 4237); (4253, 4253); (4348, 4348);
    (4957, 4959); (5906, 5908); (5938, 5939); (5970, 5971);
    (6002, 6003); (6068, 6069); (6071, 6077); (6086, 6086);
    (6089, 6099); (6103, 6103); (6109, 6109); (6155, 6159);
    (6211, 6211); (6277, 6278); (6313, 6313); (6432, 6434);
    (6439, 6440); (6450, 6450); (6457, 6459); (6679, 6680);
    (6683, 6683); (6742, 6742); (6744, 6750); (6752, 6752);
    (6754, 6754); (6757, 6764); (6771, 6780); (6783, 6783);
    (6823, 6823); (6832, 6862); (6912, 6915); (6964, 6964);
    (6966, 6970); (6972, 6972); (6978, 6978); (7019, 7027);
    (7040, 7041); (7074, 7077); (7080, 7081); (7083, 7085);
    (7142, 7142); (7144, 7145); (7149, 7149); (7151, 7153);
    (7212, 7219); (7222, 7223); (7288, 7293); (7376, 7378);
    (7380, 7392); (7394, 7400); (7405, 7405); (7412, 7412);
    (7416, 7417); (7468, 7530); (7544, 7544); (7579, 7679);
    (8125, 8125); (8127, 8129); (8141, 8143); (8157, 8159);
    (8173, 8175); (8189, 8190); (8203, 8207); (8216, 8217);
    (8228, 8228); (8231, 8231); (8234, 8238); (8288, 8292);
    (8294, 8303); (8305, 8305); (8319, 8319); (8336, 8348);
    (8400, 8432); (11388, 11389); (11503, 11505); (11631, 11631);
    (11647, 11647); (11744, 11775); (11823, 11823); (12293, 12293);
    (12330, 12333); (12337, 12341); (12347, 12347); (12441, 12446);
    (12540, 12542); (40981, 40981); (42232, 42237); (42508, 42508);
    (42607, 42610); (42612, 42621); (42623, 42623); (42652, 42655);
    (42736, 42737); (42752, 42785); (42864, 42864); (42888, 42890);
    (42994, 42996); (43000, 43001); (43010, 43010); (43014, 43014);
    (43019, 43019); (43045, 43046); (43052, 43052); (43204, 43205);
    (43232, 43249); (43263, 43263); (43302, 43309); (43335, 43345);
    (43392, 43394); (43443, 43443); (43446, 43449); (43452, 43453);
    (43471, 43471); (43493, 43494); (43561, 43566); (43569, 43570);
    (43573, 43574); (43587, 43587); (43596, 43596); (43632, 43632);
    (43644, 43644); (43696, 43696); (43698, 43700); (43703, 43704);
    (43710, 43711); (43713, 43713); (43741, 43741); (43756, 43757);
    (43763, 43764); (43766, 43766); (43867, 43871); (43881, 43883);
    (44005, 44005); (44008, 44008); (44013, 44013); (64286, 64286);
    (64434, 64450); (65024, 65039); (65043, 65043); (65056, 65071);
    (65106, 65106); (65109, 65109); (65279, 65279); (65287, 65287);
    (65294, 65294); (65306, 65306); (65342, 65342); (65344, 65344);
    (65392, 65392); (65438, 65439); (65507, 65507); (65529, 65531);
    (66045, 66045); (66272, 66272); (66422, 66426); (67456, 67461);
    (67463, 67504); (67506, 67514); (68097, 68099); (68101, 68102);
    (68108, 68111); (68152, 68154); (68159, 68159); (68325, 68326);
    (68900, 68903); (69291, 69292); (69446, 69456); (69506, 69509);
    (69633, 69633); (69688, 69702); (69744, 69744); (69747, 69748);
    (69759, 69761); (69811, 69814); (69817, 69818); (69821, 69821);
    (69826, 69826); (69837, 69837); (69888, 69890); (69927, 69931);
    (69933, 69940); (70003, 70003); (70016, 70017); (70070, 70078);
    (70089, 70092); (70095, 70095); (70191, 70193); (70196, 70196);
    (70198, 70199); (70206, 70206); (70367, 70367); (70371, 70378);
    (70400, 70401); (70459, 70460); (70464, 70464); (70502, 70508);
    (70512, 70516); (70712, 70719); (70722, 70724); (70726, 70726);
    (70750, 70750); (70835, 70840); (70842, 70842); (70847, 70848);
    (70850, 70851); (71090, 71093); (71100, 71101); (71103, 71104);
    (71132, 71133); (71219, 71226); (71229, 71229); (71231, 71232);
    (71339, 71339); (71341, 71341); (71344, 71349); (71351, 71351);
    (71453, 71455); (71458, 71461); (71463, 71467); (71727, 71735);
    (71737, 71738); (71995, 71996); (71998, 71998); (72003, 72003);
    (72148, 72151); (72154, 72155); (72160, 72160); (72193, 72202);
    (72243, 72248); (72251, 72254); (72263, 72263); (72273, 72278);
    (72281, 72283); (72330, 72342); (72344, 72345); (72752, 72758);
    (72760, 72765); (72767, 72767); (72850, 72871); (72874, 72880);
    (72882, 72883); (72885, 72886); (73009, 73014); (73018, 73018);
    (73020, 73021); (73023, 73029); (73031, 73031); (73104, 73105);
    (73109, 73109); (73111, 73111); (73459, 73460); (78896, 78904);
    (92912, 92916); (92976, 92982); (92992, 92995); (94031, 94031);
    (94095, 94111); (94176, 94177); (94179, 94180); (110576, 110579);
    (110581, 110587); (110589, 110590); (113821, 113822); (113824, 113827);
    (118528, 118573); (118576, 118598); (119143, 119145); (119155, 119170);
    (119173, 119179); (119210, 119213); (119362, 119364); (121344, 121398);
    (121403, 121452); (121461, 121461); (121476, 121476); (121499, 121503);
    (121505, 121519); (122880, 122886); (122888, 122904); (122907, 122913);
    (122915, 122916); (122918, 122922); (123184, 123197); (123566, 123566);
    (123628, 123631); (125136, 125142); (125252, 125259); (127995, 127999);
    (917505, 917505); (917536, 917631); (917760, 917999) ]%Z.

(** The cased code points among those that are not case-ignorable. *)
Definition cased_table : list (Z * Z) :=
  [ (65, 90); (97, 122); (170, 170); (181, 181);
    (186, 186); (192, 214); (216, 246); (248, 442);
    (444, 447); (452, 659); (661, 687); (880, 883);
    (886, 887); (891, 893); (895, 895); (902, 902);
    (904, 906); (908, 908); (910, 929); (931, 1013);
    (1015, 1153); (1162, 1327); (1329, 1366); (1376, 1416);
    (4256, 4293); (4295, 4295); (4301, 4301); (4304, 4346);
    (4349, 4351); (5024, 5109); (5112, 5117); (7296, 7304);
    (7312, 7354); (7357, 7359); (7424, 7467); (7531, 7543);
    (7545, 7578); (7680, 7957); (7960, 7965); (7968, 8005);
    (8008, 8013); (8016, 8023); (8025, 8025); (8027, 8027);
    (8029, 8029); (8031, 8061); (8064, 8116); (8118, 8124);
    (8126, 8126); (8130, 8132); (8134, 8140); (8144, 8147);
    (8150, 8155); (8160, 8172); (8178, 8180); (8182, 8188);
    (8450, 8450); (8455, 8455); (8458, 8467); (8469, 8469);
    (8473, 8477); (8484, 8484); (8486, 8486); (8488, 8488);
    (8490, 8493); (8495, 8500); (8505, 8505); (8508, 8511);
    (8517, 8521); (8526, 8526); (8544, 8575); (8579, 8580);
    (9398, 9449); (11264, 11387); (11390, 11492); (11499, 11502);
    (11506, 11507); (11520, 11557); (11559, 11559); (11565, 11565);
    (42560, 42605); (42624, 42651); (42786, 42863); (42865, 42887);
    (42891, 42894); (42896, 42954); (42960, 42961); (42963, 42963);
    (42965, 42969); (42997, 42998); (43002, 43002); (43824, 43866);
    (43872, 43880); (43888, 43967); (64256, 64262); (64275, 64279);
    (65313, 65338); (65345, 65370); (66560, 66639); (66736, 66771);
    (66776, 66811); (66928, 66938); (66940, 66954); (66956, 66962);
    (66964, 66965); (66967, 66977); (66979, 66993); (66995, 67001);
    (67003, 67004); (68736, 68786); (68800, 68850); (71840, 71903);
    (93760, 93823); (119808, 119892); (119894, 119964); (119966, 119967);
    (119970, 119970); (119973, 119974); (119977, 119980); (119982, 119993);
    (119995, 119995); (119997, 120003); (120005, 120069); (120071, 120074);
    (120077, 120084); (120086, 120092); (120094, 120121); (120123, 120126);
    (120128, 120132); (120134, 120134); (120138, 120144); (120146, 120485);
    (120488, 120512); (120514, 120538); (120540, 120570); (120572, 120596);
    (120598, 120628); (120630, 120654); (120656, 120686); (120688, 120712);
    (120714, 120744); (120746, 120770); (120772, 120779); (122624, 122633);
    (122635, 122654); (125184, 125251); (127280, 127305); (127312, 127337);
    (127344, 127369) ]%Z.

Fixpoint lookup_lower (table : list (Z * Z * Z * Z)) (c : Z) : Z :=
  match table with
  | [] => c
  | (first, last, step, offset) :: table' =>
      if ((first <=? c) && (c <=? last) && ((c - first) mod step =? 0))%Z
      then (c + offset)%Z
      else lookup_lower table' c
  end.

Definition in_ranges (table : list (Z * Z)) (c : Z) : bool :=
  existsb (fun r => ((fst r <=? c) && (c <=? snd r))%Z) table.

(** LATIN CAPITAL LETTER I WITH DOT ABOVE is the one character whose
    lowercase is two code points. *)
Definition lower_full (c : Z) : list Z :=
  if (c =? 304)%Z then [105; 775]%Z else [lookup_lower lower_table c].

Definition is_case_ignorable (u : uchar) : bool :=
  match u with
  | Cp c => in_ranges case_ignorable_table c
  | Raw _ => false
  end.

Definition is_cased (u : uchar) : bool :=
  match u with
  | Cp c => in_ranges cased_table c
  | Raw _ => false
  end.

Fixpoint skip_case_ignorable (l : list uchar) : list uchar :=
  match l with
  | [] => []
  | u :: l' => if is_case_ignorable u then skip_case_ignorable l' else l
  end.

(** A capital sigma is final when, case-ignorable characters skipped, it
    follows a cased character and is not followed by one; [before] lists
    the characters before it, the nearest first. *)
Definition final_sigma (before after : list uchar) : bool :=
  match skip_case_ignorable before with
  | [] => false
  | u :: _ =>
      is_cased u &&
      match skip_case_ignorable after with
      | [] => true
      | v :: _ => negb (is_cased v)
      end
  end.

Definition lower_char (before : list uchar) (u : uchar) (after : list uchar)
    : list uchar :=
  match u with
  | Raw b => [Raw b]
  | Cp c =>
      if (c =? 931)%Z
      then [Cp (if final_sigma before after then 962 else 963)%Z]
      else map Cp (lower_full c)
  end.

Fixpoint lower_chars (before : list uchar) (l : list uchar) : list uchar :=
  match l with
  | [] => []
  | u :: l' => lower_char before u l' ++ lower_chars (u :: before) l'
  end.

(** [str.lower()] *)
Definition lower (s : string) : string :=
  utf8_encode (lower_chars [] (utf8_decode s)).

(** ** The search box *)

(** [needle in hay] on Python strings. *)
Fixpoint str_in (needle hay : string) : bool :=
  String.prefix needle hay ||
  match hay with
  | EmptyString => false
  | String _ hay' => str_in needle hay'
  end.

(** Truth value of a Python string. *)
Definition str_bool (s : string) : bool :=
  match s with
  | EmptyString => false
  | String _ _ => true
  end.

Definition matching_translators (search_term : string) (translators : list string)
    : list string :=
  filter (fun t => str_in (lower search_term) (lower t)) translators.

(** The options handed to the selector, lines 61-65. *)
Definition selector_options (search_term : string) (translators : list string)
    : list string :=
  if str_bool search_term then matching_translators search_term translators
  else translators.

(** ** Streamlit: the calls a run performs *)

Inductive ChartKind : Type := LineChart | BarChart.

(** A plotly figure, reduced to what is plotted. *)
Record Figure : Type := mkFigure {
  fig_kind : ChartKind;
  fig_title : string;
  fig_x : list string;
  fig_y : list Z
}.

(** One row of the post-level table,
    [["Index", "Post Title", "Post Downloads", "PID"]]. *)
Record PostRow : Type := mkPostRow {
  pr_Index : nat;
  pr_Title : string;
  pr_Downloads : Z;
  pr_PostID : Pid
}.

Inductive UiEvent : Type :=
| st_set_page_config (page_title layout : string)
| st_title (text : string)
| st_error (text : string)
| st_sidebar_title (text : string)
| st_sidebar_text_input (label : string)
| st_sidebar_selectbox (label : string) (options : list string)
| st_sidebar_write (text : string)
| st_sidebar_dataframe (table : list LeaderRow)
| st_columns (widths : list nat)
| st_write (text : string)
| st_metric (label : string) (value : Z)
| st_plotly_chart (fig : Figure)
| st_dataframe (table : list PostRow).

(** A run: the calls made so far, and a value or the exception that
    stopped it. *)
Definition UI (A : Type) : Type := (list UiEvent * Result A)%type.

#[export] Instance UI_Monad : Monad UI := {
  ret := fun A a => ([], inr a);
  bind := fun A B m k =>
    match m with
    | (calls, inl e) => (calls, inl e)
    | (calls, inr a) => let (calls', r) := k a in (calls ++ calls', r)
    end
}.

Definition emit (e : UiEvent) : UI unit := ([e], inr tt).

Definition lift {A : Type} (r : Result A) : UI A := ([], r).

Definition str_of_Z (z : Z) : string := NilZero.string_of_int (Z.to_int z).

Definition newline : string := String (ascii_of_nat 10) EmptyString.

(** ** The loader *)

(** What [open] and [json.load] find at [final_results.json]. *)
Inductive FileState : Type :=
| FileMissing
| FileMalformed
| FileJson (results : list ResultRecord).

Definition load_results (file : FileState) : UI (list ResultRecord) :=
  match file with
  | FileJson results => ret results
  | FileMalformed => lift (raise JSONDecodeError)
  | FileMissing =>
      emit (st_error "Final results file not found. Please run the algorithm first.") ;;
      ret []
  end.

(** ** The dashboard *)

(** [st.sidebar.selectbox]: the option the user picked, the first one
    unless they chose otherwise, and [None] when there is nothing to pick. *)
Definition selectbox (label : string) (options : list string) (pick : nat)
    : UI (option string) :=
  emit (st_sidebar_selectbox label options) ;;
  ret (match options with
       | [] => None
       | first :: _ => Some (nth pick options first)
       end).

(** [df[df["Translator"] == selected_translator].reset_index(drop=True)] *)
Definition select_translator (df : DataFrame) (selected : option string)
    : Result DataFrame :=
  names <- get_column df "Translator" Translator ;;
  ret (mkFrame (columns df)
         (filter (fun r => match selected with
                           | Some s => String.eqb (Translator r) s
                           | None => false
                           end) (rows df))).

(** [series.iloc[0]] *)
Definition iloc0 {A : Type} (series : list A) : Result A :=
  match series with
  | [] => raise IndexError
  | v :: _ => ret v
  end.

Definition px_chart (kind : ChartKind) (title : string) (data : DataFrame)
    : Result Figure :=
  xs <- get_column data "Post Title" PostTitle ;;
  ys <- get_column data "Post Downloads" PostDownloads ;;
  ret (mkFigure kind title xs ys).

Definition post_table (data : DataFrame) : list PostRow :=
  map (fun ir => {| pr_Index := fst ir;
                    pr_Title := PostTitle (snd ir);
                    pr_Downloads := PostDownloads (snd ir);
                    pr_PostID := PID (snd ir) |})
      (combine (seq 1 (List.length (rows data))) (rows data)).

(** Lines 79-131: the right panel for the selected translator. *)
Definition detail_panel (name : string) (translator_data : DataFrame) : UI unit :=
  emit (st_columns [1; 3]%nat) ;;
  emit (st_write ("### " ++ name ++ "'s Overview")%string) ;;
  totals <- lift (get_column translator_data "Total Downloads" TotalDownloads) ;;
  total_downloads <- lift (iloc0 totals) ;;
  let total_posts := List.length (rows translator_data) in
  emit (st_metric "Total Downloads" total_downloads) ;;
  emit (st_metric "Number of Posts" (Z.of_nat total_posts)) ;;
  emit (st_write ("### Download Trends for " ++ name)%string) ;;
  fig <- lift (px_chart LineChart "Post Downloads Trend" translator_data) ;;
  emit (st_plotly_chart fig) ;;
  emit (st_write ("### Post Distribution for " ++ name)%string) ;;
  fig <- lift (px_chart BarChart "Post Downloads Distribution" translator_data) ;;
  emit (st_plotly_chart fig) ;;
  emit (st_write ("### Posts by " ++ name)%string) ;;
  emit (st_dataframe (post_table translator_data)).

Definition tips : string :=
  (newline ++
   "        #### Tips:" ++ newline ++
   "        - Use the sidebar to navigate between translators." ++ newline ++
   "        - Search for translators by name using the search box." ++ newline ++
   "        - Visualize individual translator performance on the right panel." ++ newline ++
   "        ")%string.

Section Dashboard.

(** [sort_values("Total Downloads", ascending=False)] on the grouped
    frame. *)
Variable sort_values : list GroupRow -> list GroupRow.

(** Lines 50-57: the leaderboard. *)
Definition translator_table (df : DataFrame) : Result (list LeaderRow) :=
  grouped <- groupby_max df ;;
  ret (assign_index (sort_values grouped)).

(** [search_term] is what the text input returns and [pick] the position
    the user chose in the selector. *)
Definition main (file : FileState) (search_term : string) (pick : nat) : UI unit :=
  emit (st_set_page_config "Trending Translators Dashboard" "wide") ;;
  emit (st_title "Trending Translators Dashboard") ;;
  results <- load_results file ;;
  match results with
  | [] => ret tt
  | _ :: _ =>
      let df := prepare_data results in
      emit (st_sidebar_title "Translator Selector") ;;
      emit (st_sidebar_text_input "Search for a Translator") ;;
      table <- lift (translator_table df) ;;
      let translators := map lb_Translator table in
      selected_translator <-
        (if str_bool search_term
         then selectbox "Matching Translators"
                (matching_translators search_term translators) pick
         else selectbox "Select a Translator" translators pick) ;;
      emit (st_sidebar_write "### Translator List") ;;
      emit (st_sidebar_dataframe table) ;;
      translator_data <- lift (select_translator df selected_translator) ;;
      (match selected_translator with
       | Some name => if str_bool name then detail_panel name translator_data
                      else ret tt
       | None => ret tt
       end) ;;
      emit (st_write "---") ;;
      emit (st_write "### Global Insights") ;;
      summary <- lift (global_summary df) ;;
      let (total_translators, total_downloads) := summary in
      emit (st_write ("**Total Translators**: "
                      ++ str_of_Z (Z.of_nat total_translators))%string) ;;
      emit (st_write ("**Total Downloads Across All Translators**: "
                      ++ str_of_Z total_downloads)%string) ;;
      emit (st_write tips)
  end.

End Dashboard.

(** A stable instance of the sort: insertion sort by descending total,
    each row placed before the rows after it that have the same total. *)
Definition total_gtb (a b : GroupRow) : bool :=
  (g_TotalDownloads b <? g_TotalDownloads a)%Z.

Definition stable_sort_values (l : list GroupRow) : list GroupRow :=
  sort_by total_gtb l.

(** Another instance, which puts equal totals in the opposite order. *)
Definition total_geb (a b : GroupRow) : bool :=
  (g_TotalDownloads b <=? g_TotalDownloads a)%Z.

Definition reversing_sort_values (l : list GroupRow) : list GroupRow :=
  sort_by total_geb l.

(** The scenario of the specification. *)
Definition scenario : list ResultRecord :=
  [ mkResult 1 "A" 100
      [ mkPost "p1" 60 (PidStr "x"); mkPost "p2" 40 (PidStr "y") ] ].

(** Two translators with equal totals. *)
Definition tie_input : list ResultRecord :=
  [ mkResult 1 "A" 50 [ mkPost "a1" 50 (PidStr "a") ];
    mkResult 2 "B" 50 [ mkPost "b1" 50 (PidStr "b") ] ].

(** Two translators that hold a post with the same pid and downloads. *)
Definition shared_pid_input : list ResultRecord :=
  [ mkResult 1 "A" 100
      [ mkPost "p1" 60 (PidStr "x"); mkPost "p2" 40 (PidStr "y") ];
    mkResult 2 "B" 60 [ mkPost "q" 60 (PidStr "x") ] ].

(** Two records of translator A around one of translator B. *)
Definition merged_input : list ResultRecord :=
  [ mkResult 3 "A" 50 [ mkPost "a1" 50 (PidStr "a1") ];
    mkResult 1 "B" 80 [ mkPost "b1" 80 (PidStr "b1") ];
    mkResult 2 "A" 70
      [ mkPost "a2" 30 (PidStr "a2"); mkPost "a3" 40 (PidStr "a3") ] ].

(** Two flat rows with one pid and different post-level downloads. *)
Definition conflicting_rows : list FlatRow :=
  [ mkRow 1 "A" 100 "p1" 60 (PidStr "x");
    mkRow 2 "B" 45 "q" 45 (PidStr "x") ].

(** The calls every run starts with, and those that open the sidebar. *)
Definition header : list UiEvent :=
  [ st_set_page_config "Trending Translators Dashboard" "wide";
    st_title "Trending Translators Dashboard" ].

Definition sidebar_head : list UiEvent :=
  [ st_sidebar_title "Translator Selector";
    st_sidebar_text_input "Search for a Translator" ].

Definition missing_file_notice : UiEvent :=
  st_error "Final results file not found. Please run the algorithm first.".

(** Two records of the same translator, the first one without posts. *)
Definition shared_name_input : list ResultRecord :=
  [ mkResult 1 "A" 10 [];
    mkResult 2 "A" 5 [ mkPost "p" 5 (PidStr "x") ] ].

(** ** Notions used to state the properties *)

(** The row appended for post [p] of record [R]. *)
Definition row_of (R : ResultRecord) (p : PostRecord) : FlatRow :=
  mkRow (res_rank R) (res_translator R) (res_downloads R)
        (post_title p) (post_downloads p) (post_pid p).

(** The part of a flat row that comes from its post, with the translator
    it is attributed to. *)
Definition post_entry (r : FlatRow) : string * string * Z * Pid :=
  (Translator r, PostTitle r, PostDownloads r, PID r).

(** [m] is the maximum of column [f] over the rows of [data] that belong
    to translator [name]. *)
Definition group_max_of (data : list FlatRow) (name : string)
    (f : FlatRow -> Z) (m : Z) : Prop :=
  (exists r, In r data /\ Translator r = name /\ f r = m) /\
  (forall r, In r data -> Translator r = name -> (f r <= m)%Z).

(** The leaderboard in the words of the specification: group the flat rows
    by translator and take the maximum rank and the maximum total of each
    group ... *)
Definition spec_groups (data : list FlatRow) (groups : list GroupRow) : Prop :=
  NoDup (map g_Translator groups) /\
  (forall name, In name (map g_Translator groups) <->
                In name (map Translator data)) /\
  (forall g, In g groups ->
     group_max_of data (g_Translator g) Rank (g_Rank g) /\
     group_max_of data (g_Translator g) TotalDownloads (g_TotalDownloads g)).

(** ... sort by descending total, in whichever order among equal totals ... *)
Definition sorted_desc (l : list GroupRow) : Prop :=
  forall i j a b, (i <= j)%nat ->
    nth_error l i = Some a -> nth_error l j = Some b ->
    (g_TotalDownloads b <= g_TotalDownloads a)%Z.

(** ... and number the rows 1, 2, ... in that order. *)
Definition dense_index (sorted : list GroupRow) (table : list LeaderRow) : Prop :=
  List.length table = List.length sorted /\
  (forall i g, nth_error sorted i = Some g ->
     nth_error table i =
       Some (mkLeader (S i) (g_Rank g) (g_Translator g) (g_TotalDownloads g))).

Definition spec_leaderboard (data : list FlatRow) (table : list LeaderRow) : Prop :=
  exists groups sorted,
    spec_groups data groups /\
    Permutation groups sorted /\
    sorted_desc sorted /\
    dense_index sorted table.

(** The total the global summary reports for the flat rows [data]: the sum
    of the kept post-level downloads in the dtype of the whole column. *)
Definition reported_total (data : list FlatRow) : Z :=
  series_sum (infer_int_dtype (map PostDownloads data))
    (map PostDownloads (drop_marked data (duplicated [] (map PID data)))).




(** The exact sum of the post-level downloads of the rows of [data] that
    [drop_duplicates] keeps. *)
Definition total_downloads_of (data : list FlatRow) : Z :=
  column_sum (map PostDownloads
                (drop_marked data (duplicated [] (map PID data)))).


(** The rows kept by [drop_duplicates]: those whose pid is met for the
    first time, [seen] being the pids met before. *)
Fixpoint keep_first (seen : list Pid) (data : list FlatRow) : list FlatRow :=
  match data with
  | [] => []
  | r :: data' =>
      if in_dec Pid_eq_dec (PID r) seen then keep_first seen data'
      else r :: keep_first (PID r :: seen) data'
  end.










(** The contract of [sort_values("Total Downloads", ascending=False)]. *)
Definition desc_total (a b : GroupRow) : Prop :=
  (g_TotalDownloads b <= g_TotalDownloads a)%Z.

Definition sorts_by_total_desc (sort : list GroupRow -> list GroupRow) : Prop :=
  (forall l, Permutation l (sort l)) /\
  (forall l, Sorted desc_total (sort l)).

(** [l1] is [l2] with some elements left out, the others in their order. *)
Inductive subsequence {A : Type} : list A -> list A -> Prop :=
| subsequence_nil : subsequence [] []
| subsequence_keep (x : A) (l1 l2 : list A) :
    subsequence l1 l2 -> subsequence (x :: l1) (x :: l2)
| subsequence_skip (x : A) (l1 l2 : list A) :
    subsequence l1 l2 -> subsequence l1 (x :: l2).

(** All the posts of the document, and the sum of their downloads with
    nothing left out. *)
Definition all_posts (results : list ResultRecord) : list PostRecord :=
  flat_map res_posts results.

Definition plain_total (results : list ResultRecord) : Z :=
  column_sum (map post_downloads (all_posts results)).

(** The records of translator [name]. *)
Definition records_of (name : string) (results : list ResultRecord)
    : list ResultRecord :=
  filter (fun R => String.eqb (res_translator R) name) results.

(** * Properties *)

(** ** The flat table *)

Lemma rows_pd_DataFrame (data : list FlatRow) : rows (pd_DataFrame data) = data.
Proof. destruct data; reflexivity. Qed.

Lemma inner_loop (R : ResultRecord) (total : Z) (posts : list PostRecord) :
  forall data,
    fold_left (append_post R total) posts data =
    data ++ map (fun p => mkRow (res_rank R) (res_translator R) total
                            (post_title p) (post_downloads p) (post_pid p)) posts.
Proof.
  induction posts as [|p posts IH]; intros data; simpl.
  - now rewrite app_nil_r.
  - rewrite IH. unfold append_post. now rewrite <- app_assoc.
Qed.

Lemma append_result_rows (data : list FlatRow) (R : ResultRecord) :
  append_result data R = data ++ map (row_of R) (res_posts R).
Proof. unfold append_result. now rewrite inner_loop. Qed.

Lemma outer_loop (results : list ResultRecord) :
  forall data,
    fold_left append_result results data =
    data ++ flat_map (fun R => map (row_of R) (res_posts R)) results.
Proof.
  induction results as [|R results IH]; intros data; simpl.
  - now rewrite app_nil_r.
  - rewrite IH, append_result_rows. now rewrite <- app_assoc.
Qed.

Lemma prepare_rows_flat_map (results : list ResultRecord) :
  prepare_rows results = flat_map (fun R => map (row_of R) (res_posts R)) results.
Proof. unfold prepare_rows. now rewrite outer_loop. Qed.

Lemma prepare_rows_app (l1 l2 : list ResultRecord) :
  prepare_rows (l1 ++ l2) = prepare_rows l1 ++ prepare_rows l2.
Proof. rewrite !prepare_rows_flat_map. apply flat_map_app. Qed.

Lemma prepare_rows_In (results : list ResultRecord) (r : FlatRow) :
  In r (prepare_rows results) <->
  exists R p, In R results /\ In p (res_posts R) /\ r = row_of R p.
Proof.
  rewrite prepare_rows_flat_map, in_flat_map. split.
  - intros (R & HR & Hr). apply in_map_iff in Hr as (p & <- & Hp). eauto.
  - intros (R & p & HR & Hp & ->). exists R. split; [assumption|].
    now apply in_map.
Qed.

(** C1. Every flat row that [prepare_data] derives from a post of a record
    [R] carries [R]'s rank as [Rank] and [R]'s downloads as
    [Total Downloads], whatever the posts' own downloads are: the rows
    derived from [R] stand between those of the records before it and those
    of the records after it, one per post and in the posts' positions, each
    with the two fields of [R] and the title, downloads and pid of its
    post. *)
Theorem prepare_data_inherits_rank_and_total :
  forall (before after : list ResultRecord) (R : ResultRecord),
  exists derived : list FlatRow,
    rows (prepare_data (before ++ R :: after)) =
      rows (prepare_data before) ++ derived ++ rows (prepare_data after) /\
    List.length derived = List.length (res_posts R) /\
    Forall (fun row => Rank row = res_rank R /\
                       TotalDownloads row = res_downloads R) derived /\
    Forall2 (fun row post => Translator row = res_translator R /\
                             PostTitle row = post_title post /\
                             PostDownloads row = post_downloads post /\
                             PID row = post_pid post) derived (res_posts R).
Proof.
  intros before after R.
  exists (map (row_of R) (res_posts R)).
  unfold prepare_data. rewrite !rows_pd_DataFrame.
  split; [|split; [|split]].
  - change (R :: after) with ([R] ++ after).
    rewrite !prepare_rows_app. f_equal. f_equal.
    rewrite prepare_rows_flat_map. simpl. now rewrite app_nil_r.
  - apply length_map.
  - apply Forall_forall. intros row Hrow.
    apply in_map_iff in Hrow as (p & <- & _). now split.
  - induction (res_posts R) as [|p posts IH]; simpl; constructor; auto.
Qed.

(** C6. The flat table lists the posts translator by translator in the
    order of the input records and, under one translator, in the order of
    that record's posts array. *)
Theorem prepare_data_preserves_order :
  forall results : list ResultRecord,
    map post_entry (rows (prepare_data results)) =
    flat_map (fun R => map (fun p => (res_translator R, post_title p,
                                      post_downloads p, post_pid p))
                           (res_posts R)) results.
Proof.
  intros results. unfold prepare_data.
  rewrite rows_pd_DataFrame, prepare_rows_flat_map.
  induction results as [|R results IH]; simpl.
  - reflexivity.
  - rewrite map_app, IH. f_equal.
    rewrite map_map. now apply map_ext.
Qed.

(** ** Lists: distinct values, insertion sort, maxima *)

Lemma unique_In (l : list string) :
  forall seen x, In x (unique seen l) <-> In x l /\ ~ In x seen.
Proof.
  induction l as [|y l IH]; intros seen x; simpl.
  - tauto.
  - destruct (in_dec string_dec y seen) as [Hy|Hy].
    + rewrite IH. split.
      * tauto.
      * intros [[->|Hx] Hn]; [contradiction|tauto].
    + simpl. rewrite IH. simpl. split.
      * intros [->|[Hx Hn]]; [tauto|]. split; [tauto|]. tauto.
      * intros [[->|Hx] Hn]; [tauto|].
        destruct (string_dec y x) as [->|Hne]; [tauto|]. right. tauto.
Qed.

Lemma unique_NoDup (l : list string) : forall seen, NoDup (unique seen l).
Proof.
  induction l as [|y l IH]; intros seen; simpl.
  - constructor.
  - destruct (in_dec string_dec y seen) as [Hy|Hy]; [apply IH|].
    constructor; [|apply IH].
    rewrite unique_In. simpl. tauto.
Qed.

Lemma insert_by_Permutation {A : Type} (le : A -> A -> bool) (x : A) (l : list A) :
  Permutation (x :: l) (insert_by le x l).
Proof.
  induction l as [|y l IH]; simpl.
  - apply Permutation_refl.
  - destruct (le y x).
    + eapply perm_trans; [apply perm_swap|]. now apply perm_skip.
    + apply Permutation_refl.
Qed.

Lemma sort_by_Permutation {A : Type} (le : A -> A -> bool) (l : list A) :
  Permutation l (sort_by le l).
Proof.
  induction l as [|x l IH]; simpl.
  - apply perm_nil.
  - eapply perm_trans; [apply perm_skip, IH|]. apply insert_by_Permutation.
Qed.

Lemma fold_max_ge (vs : list Z) :
  forall v, (v <= fold_left Z.max vs v)%Z /\
            (forall x, In x vs -> (x <= fold_left Z.max vs v)%Z).
Proof.
  induction vs as [|w vs IH]; intros v; simpl.
  - split; [lia|tauto].
  - destruct (IH (Z.max v w)) as [H1 H2]. split; [lia|].
    intros x [->|Hx]; [lia|auto].
Qed.

Lemma fold_max_In (vs : list Z) :
  forall v, fold_left Z.max vs v = v \/ In (fold_left Z.max vs v) vs.
Proof.
  induction vs as [|w vs IH]; intros v; simpl.
  - now left.
  - destruct (IH (Z.max v w)) as [H|H]; [|tauto].
    rewrite H. destruct (Z.max_spec v w) as [[_ ->]|[_ ->]]; tauto.
Qed.

Lemma column_max_upper (values : list Z) (x : Z) :
  In x values -> (x <= column_max values)%Z.
Proof.
  destruct values as [|v vs]; simpl; [tauto|].
  destruct (fold_max_ge vs v) as [H1 H2].
  intros [<-|Hx]; auto.
Qed.

Lemma column_max_In (values : list Z) :
  values <> [] -> In (column_max values) values.
Proof.
  destruct values as [|v vs]; [congruence|]. intros _. simpl.
  destruct (fold_max_In vs v) as [->|H]; tauto.
Qed.

Lemma group_of_In (key : string) (data : list FlatRow) (r : FlatRow) :
  In r (group_of key data) <-> In r data /\ Translator r = key.
Proof.
  unfold group_of. rewrite filter_In, String.eqb_eq. tauto.
Qed.

Lemma aggregate_max_is_max (data : list FlatRow) (key : string) (f : FlatRow -> Z) :
  In key (map Translator data) ->
  group_max_of data key f (column_max (map f (group_of key data))).
Proof.
  intros Hkey. apply in_map_iff in Hkey as (r0 & Hr0 & Hin0).
  assert (Hne : map f (group_of key data) <> []).
  { intros Hnil. apply map_eq_nil in Hnil.
    assert (H : In r0 (group_of key data)) by (apply group_of_In; tauto).
    rewrite Hnil in H. destruct H. }
  split.
  - apply column_max_In in Hne. apply in_map_iff in Hne as (r & Hr & Hin).
    apply group_of_In in Hin. exists r. tauto.
  - intros r Hin Hname. apply column_max_upper. apply in_map.
    apply group_of_In. tauto.
Qed.

Lemma group_keys_In (data : list FlatRow) (name : string) :
  In name (group_keys data) <-> In name (map Translator data).
Proof.
  unfold group_keys. split; intros H.
  - apply (Permutation_in _ (Permutation_sym (sort_by_Permutation _ _))) in H.
    apply unique_In in H. tauto.
  - apply (Permutation_in _ (sort_by_Permutation _ _)).
    apply unique_In. simpl. tauto.
Qed.

Lemma group_keys_NoDup (data : list FlatRow) : NoDup (group_keys data).
Proof.
  unfold group_keys.
  eapply Permutation_NoDup; [apply sort_by_Permutation|apply unique_NoDup].
Qed.

Lemma group_keys_length (data : list FlatRow) :
  List.length (group_keys data) = nunique (map Translator data).
Proof.
  unfold group_keys, nunique. symmetry.
  apply Permutation_length, sort_by_Permutation.
Qed.

Lemma group_names (data : list FlatRow) (keys : list string) :
  map g_Translator (map (aggregate_max data) keys) = keys.
Proof. rewrite map_map. simpl. apply map_id. Qed.

(** The grouped frame is the grouping of the specification. *)
Lemma grouped_rows_spec (data : list FlatRow) :
  spec_groups data (map (aggregate_max data) (group_keys data)).
Proof.
  unfold spec_groups. rewrite group_names.
  split; [apply group_keys_NoDup|]. split; [apply group_keys_In|].
  intros g Hg. apply in_map_iff in Hg as (key & <- & Hkey).
  apply group_keys_In in Hkey. simpl.
  split; now apply aggregate_max_is_max.
Qed.

Lemma get_column_flat {A : Type} (df : DataFrame) (label : string) (field : FlatRow -> A) :
  columns df = flat_columns -> In label flat_columns ->
  get_column df label field = inr (map field (rows df)).
Proof.
  intros Hc Hl. unfold get_column. rewrite Hc.
  destruct (in_dec string_dec label flat_columns); [reflexivity|contradiction].
Qed.

Lemma groupby_max_flat (df : DataFrame) :
  columns df = flat_columns ->
  groupby_max df = inr (map (aggregate_max (rows df)) (group_keys (rows df))).
Proof.
  intros Hc. unfold groupby_max.
  rewrite !get_column_flat by (assumption || (simpl; tauto)).
  reflexivity.
Qed.

Lemma groupby_max_no_columns (df : DataFrame) :
  columns df = [] -> groupby_max df = inl (KeyError "Translator").
Proof. intros Hc. unfold groupby_max, get_column. rewrite Hc. reflexivity. Qed.

Lemma prepare_data_columns (results : list ResultRecord) :
  rows (prepare_data results) <> [] ->
  columns (prepare_data results) = flat_columns.
Proof.
  unfold prepare_data. destruct (prepare_rows results); simpl; congruence.
Qed.

Lemma prepare_data_no_rows (results : list ResultRecord) :
  rows (prepare_data results) = [] -> columns (prepare_data results) = [].
Proof.
  unfold prepare_data. destruct (prepare_rows results); simpl; congruence.
Qed.

(** ** The display index *)

Lemma combine_seq_nth {A : Type} (l : list A) :
  forall k i x, nth_error l i = Some x ->
    nth_error (combine (seq k (List.length l)) l) i = Some ((k + i)%nat, x).
Proof.
  induction l as [|y l IH]; intros k i x H.
  - destruct i; discriminate.
  - destruct i as [|i]; simpl in *.
    + injection H as ->. now rewrite Nat.add_0_r.
    + rewrite (IH (S k) i x H). f_equal. f_equal. lia.
Qed.

Lemma combine_seq_snd {A : Type} (l : list A) :
  forall k, map snd (combine (seq k (List.length l)) l) = l.
Proof.
  induction l as [|y l IH]; intros k; simpl; [reflexivity|].
  now rewrite IH.
Qed.

Lemma combine_seq_fst {A : Type} (l : list A) :
  forall k, map fst (combine (seq k (List.length l)) l) = seq k (List.length l).
Proof.
  induction l as [|y l IH]; intros k; simpl; [reflexivity|].
  now rewrite IH.
Qed.

Lemma assign_index_length (l : list GroupRow) :
  List.length (assign_index l) = List.length l.
Proof.
  unfold assign_index.
  rewrite length_map, length_combine, length_seq. apply Nat.min_id.
Qed.

Lemma assign_index_nth (l : list GroupRow) (i : nat) (g : GroupRow) :
  nth_error l i = Some g ->
  nth_error (assign_index l) i =
    Some (mkLeader (S i) (g_Rank g) (g_Translator g) (g_TotalDownloads g)).
Proof.
  intros H. unfold assign_index.
  rewrite nth_error_map, (combine_seq_nth l 1 i g H). reflexivity.
Qed.

Lemma assign_index_Index (l : list GroupRow) :
  map lb_Index (assign_index l) = seq 1 (List.length l).
Proof.
  unfold assign_index. rewrite map_map. simpl.
  change (fun x : nat * GroupRow => fst x) with (@fst nat GroupRow).
  apply combine_seq_fst.
Qed.

Lemma assign_index_Translator (l : list GroupRow) :
  map lb_Translator (assign_index l) = map g_Translator l.
Proof.
  unfold assign_index. rewrite map_map. simpl.
  rewrite <- (map_map snd g_Translator). now rewrite combine_seq_snd.
Qed.

Lemma assign_index_In (l : list GroupRow) (row : LeaderRow) :
  In row (assign_index l) ->
  exists g, In g l /\ lb_Rank row = g_Rank g /\
            lb_Translator row = g_Translator g /\
            lb_TotalDownloads row = g_TotalDownloads g.
Proof.
  unfold assign_index. intros H.
  apply in_map_iff in H as ([i g] & <- & Hin).
  apply in_combine_r in Hin. exists g. simpl. tauto.
Qed.

Lemma assign_index_dense (l : list GroupRow) : dense_index l (assign_index l).
Proof.
  split; [apply assign_index_length|]. intros i g. apply assign_index_nth.
Qed.

(** ** Descending order *)

Lemma StronglySorted_nth (l : list GroupRow) :
  StronglySorted desc_total l -> sorted_desc l.
Proof.
  induction 1 as [|x l Hl IH Hx]; intros i j a b Hij Ha Hb.
  - destruct i; discriminate.
  - destruct i as [|i], j as [|j]; simpl in *.
    + injection Ha as <-. injection Hb as <-. lia.
    + injection Ha as <-. apply nth_error_In in Hb.
      rewrite Forall_forall in Hx. now apply Hx.
    + lia.
    + apply (IH i j); auto. lia.
Qed.

Lemma Sorted_sorted_desc (l : list GroupRow) : Sorted desc_total l -> sorted_desc l.
Proof.
  intros H. apply StronglySorted_nth, Sorted_StronglySorted; [|exact H].
  intros a b c. unfold desc_total. lia.
Qed.

(** Insertion sorts by descending total meet the contract of
    [sort_values], whichever way they break ties. *)
Section InsertionSort.

Variable le : GroupRow -> GroupRow -> bool.
Hypothesis le_true : forall y x, le y x = true -> desc_total y x.
Hypothesis le_false : forall y x, le y x = false -> desc_total x y.

Lemma insert_by_Sorted (x : GroupRow) (l : list GroupRow) :
  Sorted desc_total l -> Sorted desc_total (insert_by le x l).
Proof.
  induction 1 as [|y l Hl IH Hy]; simpl.
  - repeat constructor.
  - destruct (le y x) eqn:E.
    + constructor; [assumption|].
      destruct l as [|z l]; simpl in *.
      * constructor. now apply le_true.
      * destruct (le z x); constructor.
        -- now inversion Hy.
        -- now apply le_true.
    + constructor; [now constructor|]. constructor. now apply le_false.
Qed.

Lemma sort_by_contract : sorts_by_total_desc (sort_by le).
Proof.
  split; intros l.
  - apply sort_by_Permutation.
  - induction l as [|x l IH]; simpl; [constructor|].
    now apply insert_by_Sorted.
Qed.

End InsertionSort.

Lemma stable_sort_values_contract : sorts_by_total_desc stable_sort_values.
Proof.
  apply sort_by_contract; unfold total_gtb, desc_total; intros y x H.
  - apply Z.ltb_lt in H. lia.
  - now apply Z.ltb_ge in H.
Qed.

Lemma reversing_sort_values_contract : sorts_by_total_desc reversing_sort_values.
Proof.
  apply sort_by_contract; unfold total_geb, desc_total; intros y x H.
  - now apply Z.leb_le in H.
  - apply Z.leb_gt in H. lia.
Qed.

(** ** The leaderboard *)

Section Leaderboard.

Variable sort_values : list GroupRow -> list GroupRow.
Hypothesis sort_values_contract : sorts_by_total_desc sort_values.

Lemma translator_table_flat (df : DataFrame) :
  columns df = flat_columns ->
  translator_table sort_values df =
    inr (assign_index
           (sort_values (map (aggregate_max (rows df)) (group_keys (rows df))))).
Proof.
  intros Hc. unfold translator_table. now rewrite (groupby_max_flat df Hc).
Qed.

Lemma translator_table_no_columns (df : DataFrame) :
  columns df = [] ->
  translator_table sort_values df = inl (KeyError "Translator").
Proof.
  intros Hc. unfold translator_table.
  now rewrite (groupby_max_no_columns df Hc).
Qed.

Lemma translator_table_spec (df : DataFrame) :
  columns df = flat_columns ->
  exists table, translator_table sort_values df = inr table /\
                spec_leaderboard (rows df) table.
Proof.
  intros Hc. destruct sort_values_contract as [Hperm Hsorted].
  eexists. split; [apply (translator_table_flat df Hc)|].
  exists (map (aggregate_max (rows df)) (group_keys (rows df))).
  eexists. split; [apply grouped_rows_spec|].
  split; [apply Hperm|]. split; [apply Sorted_sorted_desc, Hsorted|].
  apply assign_index_dense.
Qed.

Lemma translator_table_names (df : DataFrame) (table : list LeaderRow) :
  translator_table sort_values df = inr table ->
  Permutation (group_keys (rows df)) (map lb_Translator table).
Proof.
  destruct sort_values_contract as [Hperm _].
  unfold translator_table, groupby_max, get_column.
  repeat match goal with
         | |- context [in_dec string_dec ?a ?b] =>
             destruct (in_dec string_dec a b); simpl; try discriminate
         end.
  intros H. injection H as <-.
  rewrite assign_index_Translator.
  rewrite <- (group_names (rows df) (group_keys (rows df))) at 1.
  apply Permutation_map, Hperm.
Qed.


Lemma translator_table_inv (df : DataFrame) (table : list LeaderRow) :
  translator_table sort_values df = inr table ->
  table = assign_index
            (sort_values (map (aggregate_max (rows df)) (group_keys (rows df)))).
Proof.
  unfold translator_table, groupby_max, get_column.
  repeat match goal with
         | |- context [in_dec string_dec ?a ?b] =>
             destruct (in_dec string_dec a b); simpl; try discriminate
         end.
  intros H. now injection H as <-.
Qed.

Lemma translator_table_row (df : DataFrame) (table : list LeaderRow)
    (row : LeaderRow) :
  translator_table sort_values df = inr table -> In row table ->
  group_max_of (rows df) (lb_Translator row) Rank (lb_Rank row) /\
  group_max_of (rows df) (lb_Translator row) TotalDownloads
    (lb_TotalDownloads row).
Proof.
  intros Htable Hrow. destruct sort_values_contract as [Hperm _].
  apply translator_table_inv in Htable. subst table.
  apply assign_index_In in Hrow as (g & Hg & -> & -> & ->).
  apply (Permutation_in _ (Permutation_sym (Hperm _))) in Hg.
  now apply (grouped_rows_spec (rows df)).
Qed.

(** C10. When the flat table has a row, the leaderboard has exactly one
    row for each translator name of the flat table, hence as many rows as
    there are distinct names; records that share a name end up in one
    row, whose rank and total are the maxima of theirs. *)
Theorem leaderboard_one_row_per_translator :
  forall results : list ResultRecord,
    rows (prepare_data results) <> [] ->
    exists table,
      translator_table sort_values (prepare_data results) = inr table /\
      NoDup (map lb_Translator table) /\
      (forall name, In name (map lb_Translator table) <->
                    In name (map Translator (rows (prepare_data results)))) /\
      List.length table =
        nunique (map Translator (rows (prepare_data results))) /\
      (forall R, In R results -> res_posts R <> [] ->
         exists row, In row table /\
                     lb_Translator row = res_translator R /\
                     (res_rank R <= lb_Rank row)%Z /\
                     (res_downloads R <= lb_TotalDownloads row)%Z) /\
      (forall row, In row table ->
         (exists R, In R results /\ res_posts R <> [] /\
                    res_translator R = lb_Translator row /\
                    res_rank R = lb_Rank row) /\
         (exists R, In R results /\ res_posts R <> [] /\
                    res_translator R = lb_Translator row /\
                    res_downloads R = lb_TotalDownloads row)).
Proof.
  intros results Hrows.
  destruct (translator_table_spec _ (prepare_data_columns _ Hrows))
    as (table & Htable & _).
  exists table. split; [exact Htable|].
  pose proof (translator_table_names _ _ Htable) as Hnames.
  assert (Hiff : forall name, In name (map lb_Translator table) <->
                   In name (map Translator (rows (prepare_data results)))).
  { intros name. rewrite <- group_keys_In. split; intros H.
    - now apply (Permutation_in _ (Permutation_sym Hnames)).
    - now apply (Permutation_in _ Hnames). }
  split; [|split; [exact Hiff|split; [|split]]].
  - eapply Permutation_NoDup; [exact Hnames|apply group_keys_NoDup].
  - rewrite <- group_keys_length, <- (length_map lb_Translator table).
    symmetry. now apply Permutation_length.
  - intros R HR Hposts.
    destruct (res_posts R) as [|p posts] eqn:Hp; [congruence|].
    assert (Hin : In (row_of R p) (rows (prepare_data results))).
    { unfold prepare_data. rewrite rows_pd_DataFrame.
      apply prepare_rows_In. exists R, p. rewrite Hp. simpl. tauto. }
    assert (Hname : In (res_translator R) (map lb_Translator table)).
    { apply Hiff. apply in_map_iff. exists (row_of R p). tauto. }
    apply in_map_iff in Hname as (row & Hrow & Hin_row).
    exists row. split; [exact Hin_row|]. split; [exact Hrow|].
    destruct (translator_table_row _ _ _ Htable Hin_row)
      as [[_ Hrank] [_ Htotal]].
    split.
    + apply (Hrank (row_of R p)); [exact Hin|]. now rewrite Hrow.
    + apply (Htotal (row_of R p)); [exact Hin|]. now rewrite Hrow.
  - intros row Hin_row.
    destruct (translator_table_row _ _ _ Htable Hin_row)
      as [[(r1 & Hr1 & Hn1 & Hv1) _] [(r2 & Hr2 & Hn2 & Hv2) _]].
    unfold prepare_data in Hr1, Hr2. rewrite rows_pd_DataFrame in Hr1, Hr2.
    apply prepare_rows_In in Hr1 as (R1 & p1 & HR1 & Hp1 & ->).
    apply prepare_rows_In in Hr2 as (R2 & p2 & HR2 & Hp2 & ->).
    split; [exists R1|exists R2]; simpl in *;
      (split; [assumption|]); (split; [|tauto]);
      intros Hnil; rewrite Hnil in *; contradiction.
Qed.

End Leaderboard.

(** ** Deduplication by pid and the global total *)

Lemma keep_first_seen (data : list FlatRow) :
  forall s1 s2, (forall y, In y s1 <-> In y s2) ->
    keep_first s1 data = keep_first s2 data.
Proof.
  induction data as [|r data IH]; intros s1 s2 Heq; simpl; [reflexivity|].
  destruct (in_dec Pid_eq_dec (PID r) s1) as [H1|H1],
           (in_dec Pid_eq_dec (PID r) s2) as [H2|H2].
  - now apply IH.
  - apply Heq in H1. contradiction.
  - apply Heq in H2. contradiction.
  - f_equal. apply IH. intros y. simpl. rewrite Heq. tauto.
Qed.

Lemma drop_marked_duplicated (data : list FlatRow) :
  forall seen,
    drop_marked data (duplicated seen (map PID data)) = keep_first seen data.
Proof.
  induction data as [|r data IH]; intros seen; simpl; [reflexivity|].
  destruct (in_dec Pid_eq_dec (PID r) seen) as [Hin|Hin]; simpl; rewrite IH.
  - apply keep_first_seen. intros y. simpl. intuition congruence.
  - reflexivity.
Qed.



Lemma column_sum_acc (values : list Z) :
  forall a, fold_left Z.add values a = (a + column_sum values)%Z.
Proof.
  unfold column_sum.
  induction values as [|v values IH]; intros a; simpl; [lia|].
  rewrite (IH (a + v)%Z), (IH v). lia.
Qed.

Lemma column_sum_cons (v : Z) (values : list Z) :
  column_sum (v :: values) = (v + column_sum values)%Z.
Proof. unfold column_sum at 1. simpl. now rewrite column_sum_acc. Qed.








Lemma global_summary_flat (df : DataFrame) :
  columns df = flat_columns ->
  global_summary df =
    inr (nunique (map Translator (rows df)), reported_total (rows df)).
Proof.
  intros Hc. destruct df as [c data]. simpl in Hc. subst c.
  unfold global_summary, drop_duplicates_PID, downloads_dtype, reported_total.
  cbn [rows columns]. destruct data as [|r data]; [reflexivity|].
  rewrite !get_column_flat by (reflexivity || (simpl; tauto)).
  cbn [bind Result_Monad ret rows columns].
  rewrite !get_column_flat by (reflexivity || (simpl; tauto)).
  reflexivity.
Qed.

Lemma global_summary_no_columns (df : DataFrame) :
  columns df = [] -> rows df = [] ->
  global_summary df = inl (KeyError "Translator").
Proof.
  intros Hc Hr. unfold global_summary, drop_duplicates_PID, get_column.
  rewrite Hr, Hc. reflexivity.
Qed.

(** *** Sums of int64 columns *)

Lemma wrap_int64_small (z : Z) :
  (int64_min <= z <= int64_max)%Z -> wrap_int64 z = z.
Proof.
  unfold wrap_int64, int64_min, int64_max. intros H.
  rewrite Z.mod_small; lia.
Qed.

Lemma wrap_int64_add (a b : Z) :
  wrap_int64 (wrap_int64 a + b) = wrap_int64 (a + b).
Proof.
  unfold wrap_int64. f_equal.
  replace ((a - int64_min) mod 2 ^ 64 + int64_min + b - int64_min)%Z
    with ((a - int64_min) mod 2 ^ 64 + b)%Z by lia.
  rewrite Zplus_mod_idemp_l. f_equal. lia.
Qed.

Lemma series_sum_int64_acc (values : list Z) :
  forall a, fold_left (add_as dtype_int64) values (wrap_int64 a) =
            wrap_int64 (a + column_sum values).
Proof.
  induction values as [|v values IH]; intros a; simpl.
  - f_equal. unfold column_sum. simpl. lia.
  - rewrite wrap_int64_add, IH, column_sum_cons. f_equal. lia.
Qed.

Lemma series_sum_int64 (values : list Z) :
  series_sum dtype_int64 values = wrap_int64 (column_sum values).
Proof.
  unfold series_sum.
  change 0%Z with (wrap_int64 0) at 1.
  now rewrite series_sum_int64_acc.
Qed.

Lemma infer_int64 (values : list Z) :
  (forall v, In v values -> (int64_min <= v <= int64_max)%Z) ->
  infer_int_dtype values = dtype_int64.
Proof.
  intros H. unfold infer_int_dtype.
  assert (H1 : existsb (fun v => (v <? int64_min) || (uint64_max <? v))%Z
                 values = false).
  { apply not_true_is_false. intros E.
    apply existsb_exists in E as (v & Hv & E). specialize (H v Hv).
    unfold int64_min, int64_max, uint64_max in *.
    apply orb_true_iff in E as [E|E];
      [apply Z.ltb_lt in E|apply Z.ltb_lt in E]; lia. }
  assert (H2 : existsb (fun v => (int64_max <? v)%Z) values = false).
  { apply not_true_is_false. intros E.
    apply existsb_exists in E as (v & Hv & E). specialize (H v Hv).
    apply Z.ltb_lt in E. lia. }
  now rewrite H1, H2.
Qed.

(** The total of a frame whose post-level downloads all fit in int64. *)
Lemma reported_total_int64 (data : list FlatRow) :
  (forall r, In r data -> (int64_min <= PostDownloads r <= int64_max)%Z) ->
  reported_total data = wrap_int64 (total_downloads_of data).
Proof.
  intros H. unfold reported_total, total_downloads_of.
  rewrite infer_int64, series_sum_int64; [reflexivity|].
  intros v Hv. apply in_map_iff in Hv as (r & <- & Hr). auto.
Qed.






(** ** Case-insensitive search *)












(** *** [str.lower()] on ASCII text *)







(** ** Runs of [main] *)

Lemma UI_bind_value {A B : Type} (calls : list UiEvent) (a : A) (k : A -> UI B) :
  bind (calls, inr a) k = (calls ++ fst (k a), snd (k a)).
Proof. simpl. now destruct (k a). Qed.





(** C4. When the file does not exist, [load_results] raises nothing: it
    shows the notice and returns the empty list; [main], given an empty
    list (from a missing file or from an empty document), returns at once,
    with no call after the loader's. *)
Theorem missing_file_stops_the_dashboard :
  load_results FileMissing = ([missing_file_notice], inr []) /\
  (forall sort_values search_term pick,
      main sort_values FileMissing search_term pick =
        (header ++ [missing_file_notice], inr tt)) /\
  (forall sort_values search_term pick,
      main sort_values (FileJson []) search_term pick = (header, inr tt)).
Proof. repeat split. Qed.

(** C7, as the code has it. On an empty input array the flat table has no
    rows, and [main] returns at its guard on empty results: no summary is
    computed or shown. *)
Theorem empty_input_stops_before_summary :
  rows (prepare_data []) = [] /\
  (forall sort_values search_term pick,
      main sort_values (FileJson []) search_term pick = (header, inr tt)).
Proof. split; reflexivity. Qed.

(** C7 fails as stated: the summary of the frame shaped from the empty
    array is not (0, 0), the frame has no [Translator] column to count;
    and a run on the empty array shows the page header only. *)
Lemma empty_input_summary_not_reported :
  ~ (rows (prepare_data []) = [] /\
     global_summary (prepare_data []) = inr (0%nat, 0%Z)) /\
  global_summary (prepare_data []) = inl (KeyError "Translator") /\
  main stable_sort_values (FileJson []) EmptyString 0 = (header, inr tt).
Proof.
  split; [|split; reflexivity].
  intros [_ H]. discriminate H.
Qed.

(** ** Records without posts *)

Lemma prepare_rows_skip (before after : list ResultRecord) (R : ResultRecord) :
  res_posts R = [] ->
  prepare_rows (before ++ R :: after) = prepare_rows (before ++ after).
Proof.
  intros Hposts. rewrite !prepare_rows_flat_map, !flat_map_app. simpl.
  now rewrite Hposts.
Qed.

Lemma global_summary_count (results : list ResultRecord) (n : nat) (d : Z) :
  global_summary (prepare_data results) = inr (n, d) ->
  n = List.length (unique [] (map Translator (rows (prepare_data results)))).
Proof.
  intros H. destruct (rows (prepare_data results)) eqn:Hrows.
  - rewrite global_summary_no_columns in H; [discriminate| |exact Hrows].
    now apply prepare_data_no_rows.
  - rewrite global_summary_flat in H.
    + rewrite Hrows in H. now injection H as <- _.
    + apply prepare_data_columns. congruence.
Qed.

Section EmptyPosts.

Variable sort_values : list GroupRow -> list GroupRow.
Hypothesis sort_values_contract : sorts_by_total_desc sort_values.

(** C8, as the code has it. A record whose posts array is empty adds no
    row to the flat table; when no other record of the same translator
    name has posts, the name is in no row of the flat table, in no row of
    the leaderboard and not among the distinct translators counted by the
    summary, both of which are computed as soon as the flat table has a
    row. *)
Theorem record_without_posts_is_absent :
  forall (before after : list ResultRecord) (R : ResultRecord),
    res_posts R = [] ->
    let results := before ++ R :: after in
    prepare_data results = prepare_data (before ++ after) /\
    ((forall R', In R' (before ++ after) ->
                 res_translator R' = res_translator R -> res_posts R' = []) ->
     (forall row, In row (rows (prepare_data results)) ->
                  Translator row <> res_translator R) /\
     (forall table,
         translator_table sort_values (prepare_data results) = inr table ->
         ~ In (res_translator R) (map lb_Translator table)) /\
     (forall n d,
         global_summary (prepare_data results) = inr (n, d) ->
         n = List.length
               (unique [] (map Translator (rows (prepare_data results)))) /\
         ~ In (res_translator R)
              (unique [] (map Translator (rows (prepare_data results))))) /\
     (rows (prepare_data results) <> [] ->
      exists table n d,
        translator_table sort_values (prepare_data results) = inr table /\
        global_summary (prepare_data results) = inr (n, d))).
Proof.
  intros before after R Hposts results.
  assert (Heq : prepare_data results = prepare_data (before ++ after)).
  { unfold results, prepare_data. now rewrite prepare_rows_skip. }
  split; [exact Heq|]. intros Hothers.
  assert (Hrows : forall row, In row (rows (prepare_data results)) ->
                              Translator row <> res_translator R).
  { intros row Hrow Hname. rewrite Heq in Hrow.
    unfold prepare_data in Hrow. rewrite rows_pd_DataFrame in Hrow.
    apply prepare_rows_In in Hrow as (R' & p & HR' & Hp & ->).
    simpl in Hname. rewrite (Hothers R' HR' Hname) in Hp. destruct Hp. }
  assert (Hnames : ~ In (res_translator R)
                     (map Translator (rows (prepare_data results)))).
  { intros H. apply in_map_iff in H as (row & Hname & Hrow).
    now apply (Hrows row Hrow). }
  split; [exact Hrows|]. split; [|split].
  - intros table Htable Hin.
    apply (Permutation_in _
             (Permutation_sym
                (translator_table_names sort_values sort_values_contract
                   _ _ Htable))) in Hin.
    now apply group_keys_In in Hin.
  - intros n d Hsum. split; [now apply global_summary_count in Hsum|].
    rewrite unique_In. tauto.
  - intros Hne.
    pose proof (prepare_data_columns _ Hne) as Hc.
    destruct (translator_table_spec sort_values sort_values_contract _ Hc)
      as (table & Htable & _).
    exists table. rewrite (global_summary_flat _ Hc). eauto.
Qed.

End EmptyPosts.

(** C8 fails as stated: the first record of [shared_name_input] has no
    posts, yet its translator is in the leaderboard and is counted by the
    summary, through the second record. *)
Lemma record_without_posts_still_listed :
  exists R, In R shared_name_input /\ res_posts R = [] /\
    exists table n d,
      translator_table stable_sort_values (prepare_data shared_name_input)
        = inr table /\
      In (res_translator R) (map lb_Translator table) /\
      global_summary (prepare_data shared_name_input) = inr (n, d) /\
      n = 1%nat.
Proof.
  exists (mkResult 1 "A" 10 []). split; [simpl; tauto|]. split; [reflexivity|].
  exists [mkLeader 1 2 "A" 5], 1%nat, 5%Z.
  repeat split. simpl. tauto.
Qed.

(** * Worked inputs *)

(** The scenario of the specification: two flat rows, one leaderboard
    entry, one translator and 100 downloads in all. *)
Example scenario_flat_table :
  List.length (rows (prepare_data scenario)) = 2%nat.
Proof. reflexivity. Qed.

Example scenario_leaderboard :
  translator_table stable_sort_values (prepare_data scenario) =
    inr [mkLeader 1 1 "A" 100].
Proof. reflexivity. Qed.

Example scenario_summary :
  global_summary (prepare_data scenario) = inr (1%nat, 100%Z).
Proof. reflexivity. Qed.

(** Equal totals: both orders are leaderboards of the specification. *)
Example tie_in_either_order :
  translator_table stable_sort_values (prepare_data tie_input) =
    inr [mkLeader 1 1 "A" 50; mkLeader 2 2 "B" 50] /\
  translator_table reversing_sort_values (prepare_data tie_input) =
    inr [mkLeader 1 2 "B" 50; mkLeader 2 1 "A" 50] /\
  spec_leaderboard (rows (prepare_data tie_input))
    [mkLeader 1 1 "A" 50; mkLeader 2 2 "B" 50] /\
  spec_leaderboard (rows (prepare_data tie_input))
    [mkLeader 1 2 "B" 50; mkLeader 2 1 "A" 50].
Proof.
  split; [reflexivity|]. split; [reflexivity|]. split.
  - destruct (translator_table_spec stable_sort_values
                stable_sort_values_contract (prepare_data tie_input) eq_refl)
      as (table & Heq & Hspec).
    injection Heq as <-. exact Hspec.
  - destruct (translator_table_spec reversing_sort_values
                reversing_sort_values_contract (prepare_data tie_input) eq_refl)
      as (table & Heq & Hspec).
    injection Heq as <-. exact Hspec.
Qed.

(** A document whose records have no posts at all: the frame has no
    columns and the run stops on the [groupby]. *)
Example run_without_any_post :
  main stable_sort_values (FileJson [mkResult 1 "A" 100 []]) EmptyString 0 =
    (header ++ sidebar_head, inl (KeyError "Translator")).
Proof. reflexivity. Qed.

Example shared_pid_total :
  global_summary (prepare_data shared_pid_input) = inr (2%nat, 100%Z).
Proof. reflexivity. Qed.

Example search_is_case_insensitive :
  selector_options "aL" ["Alice"; "Bob"; "Vidal"; "M. ALI"] =
    ["Alice"; "Vidal"; "M. ALI"].
Proof. vm_compute. reflexivity. Qed.

(** LATIN CAPITAL LETTER E WITH ACUTE is folded like the ASCII letters. *)
Example search_folds_accented_letters :
  selector_options (str_of_codepoints [233%Z])
    [str_of_codepoints [201; 99; 111; 108; 101]%Z; "Bob"] =
    [str_of_codepoints [201; 99; 111; 108; 101]%Z].
Proof. vm_compute. reflexivity. Qed.


Lemma leaderboard_one_row_per_translator_witness :
  sorts_by_total_desc stable_sort_values /\
  rows (prepare_data merged_input) <> [] /\
  exists table,
    translator_table stable_sort_values (prepare_data merged_input) = inr table /\
    NoDup (map lb_Translator table) /\
    List.length table = nunique (map Translator (rows (prepare_data merged_input))).
Proof.
  split; [exact stable_sort_values_contract|].
  assert (Hrows : rows (prepare_data merged_input) <> []) by discriminate.
  split; [exact Hrows|].
  destruct (leaderboard_one_row_per_translator stable_sort_values
              stable_sort_values_contract merged_input Hrows)
    as (table & Htable & Hnodup & _ & Hlen & _).
  exists table. repeat split; assumption.
Defined.




Lemma record_without_posts_is_absent_witness :
  sorts_by_total_desc stable_sort_values /\
  res_posts (mkResult 2 "B" 7 []) = [] /\
  prepare_data (scenario ++ [mkResult 2 "B" 7 []]) = prepare_data scenario /\
  ~ In "B" (map lb_Translator [mkLeader 1 1 "A" 100]) /\
  ~ In "B" (unique [] (map Translator
                         (rows (prepare_data (scenario ++ [mkResult 2 "B" 7 []]))))).
Proof.
  split; [exact stable_sort_values_contract|]. split; [reflexivity|].
  destruct (record_without_posts_is_absent stable_sort_values
              stable_sort_values_contract scenario [] (mkResult 2 "B" 7 [])
              eq_refl) as [Heq Hrest].
  split; [rewrite Heq; now rewrite app_nil_r|].
  destruct Hrest as (_ & Htable & Hsum & _).
  - intros R' [<-|[]]. discriminate.
  - split.
    + apply (Htable [mkLeader 1 1 "A" 100]). reflexivity.
    + apply (Hsum 1%nat 100%Z). reflexivity.
Defined.


(** * Further properties of the code *)

(** ** Size and shape of the flat table *)

Lemma prepare_rows_length (results : list ResultRecord) :
  List.length (prepare_rows results) =
  list_sum (map (fun R => List.length (res_posts R)) results).
Proof.
  rewrite prepare_rows_flat_map.
  induction results as [|R results IH]; simpl; [reflexivity|].
  now rewrite length_app, length_map, IH.
Qed.

Lemma prepare_rows_nil (results : list ResultRecord) :
  prepare_rows results = [] <-> forall R, In R results -> res_posts R = [].
Proof.
  rewrite prepare_rows_flat_map.
  induction results as [|R results IH]; simpl.
  - tauto.
  - split.
    + intros H. apply app_eq_nil in H as [H1 H2].
      apply map_eq_nil in H1. intros R' [<-|HR']; [exact H1|].
      now apply IH.
    + intros H. rewrite (H R) by tauto. simpl. apply IH. auto.
Qed.

(** X1. The flat table has one row per post of the document; it has no row
    exactly when no record has a post, and then the frame has no column at
    all, while a table with a row has the six columns. *)
Theorem flat_table_size :
  forall results : list ResultRecord,
    List.length (rows (prepare_data results)) =
      list_sum (map (fun R => List.length (res_posts R)) results) /\
    (rows (prepare_data results) = [] <->
     forall R, In R results -> res_posts R = []) /\
    columns (prepare_data results) =
      match rows (prepare_data results) with
      | [] => []
      | _ :: _ => flat_columns
      end.
Proof.
  intros results. unfold prepare_data. rewrite rows_pd_DataFrame.
  split; [apply prepare_rows_length|]. split; [apply prepare_rows_nil|].
  now destruct (prepare_rows results).
Qed.

(** ** Selecting one translator *)

Lemma group_of_row_of (name : string) (R : ResultRecord) (posts : list PostRecord) :
  group_of name (map (row_of R) posts) =
  if String.eqb (res_translator R) name then map (row_of R) posts else [].
Proof.
  unfold group_of.
  induction posts as [|p posts IH]; simpl.
  - now destruct (String.eqb (res_translator R) name).
  - rewrite IH. now destruct (String.eqb (res_translator R) name).
Qed.

Lemma group_of_prepare_rows (name : string) (results : list ResultRecord) :
  group_of name (prepare_rows results) = prepare_rows (records_of name results).
Proof.
  rewrite !prepare_rows_flat_map. unfold records_of.
  induction results as [|R results IH]; simpl; [reflexivity|].
  unfold group_of in *. rewrite filter_app.
  fold (group_of name (map (row_of R) (res_posts R))).
  rewrite group_of_row_of, IH.
  destruct (String.eqb (res_translator R) name); reflexivity.
Qed.

Lemma select_translator_flat (df : DataFrame) (name : string) :
  columns df = flat_columns ->
  select_translator df (Some name) =
    inr (mkFrame flat_columns (group_of name (rows df))).
Proof.
  intros Hc. unfold select_translator.
  rewrite get_column_flat by (assumption || (simpl; tauto)).
  simpl. now rewrite Hc.
Qed.

(** X2. Filtering the flat table on a translator gives the rows that
    shaping that translator's records alone gives: the selected
    translator's data are its posts, record by record in input order, and
    their number is the number of those posts. *)
Theorem selected_translator_rows :
  forall (results : list ResultRecord) (name : string),
    rows (prepare_data results) <> [] ->
    exists data,
      select_translator (prepare_data results) (Some name) = inr data /\
      rows data = rows (prepare_data (records_of name results)) /\
      List.length (rows data) =
        list_sum (map (fun R => List.length (res_posts R))
                      (records_of name results)).
Proof.
  intros results name Hrows.
  rewrite (select_translator_flat _ name (prepare_data_columns _ Hrows)).
  eexists. split; [reflexivity|]. simpl.
  unfold prepare_data. rewrite !rows_pd_DataFrame.
  rewrite group_of_prepare_rows. split; [reflexivity|].
  apply prepare_rows_length.
Qed.

(** ** What [drop_duplicates] keeps *)

Lemma keep_first_subsequence (data : list FlatRow) :
  forall seen, subsequence (keep_first seen data) data.
Proof.
  induction data as [|r data IH]; intros seen; simpl.
  - constructor.
  - destruct (in_dec Pid_eq_dec (PID r) seen); constructor; apply IH.
Qed.

Lemma keep_first_pids (data : list FlatRow) :
  forall seen x,
    In x (map PID (keep_first seen data)) <->
    In x (map PID data) /\ ~ In x seen.
Proof.
  induction data as [|r data IH]; intros seen x; simpl.
  - tauto.
  - destruct (in_dec Pid_eq_dec (PID r) seen) as [Hr|Hr]; simpl; rewrite IH.
    + split; [tauto|]. intros [[<-|H] Hn]; tauto.
    + simpl. split.
      * intros [<-|[H Hn]]; tauto.
      * intros [[<-|H] Hn]; [tauto|].
        destruct (Pid_eq_dec (PID r) x); tauto.
Qed.

Lemma keep_first_NoDup (data : list FlatRow) :
  forall seen, NoDup (map PID (keep_first seen data)).
Proof.
  induction data as [|r data IH]; intros seen; simpl.
  - constructor.
  - destruct (in_dec Pid_eq_dec (PID r) seen); [apply IH|].
    simpl. constructor; [|apply IH].
    rewrite keep_first_pids. simpl. tauto.
Qed.

Lemma keep_first_is_first (data : list FlatRow) :
  forall seen r,
    In r (keep_first seen data) ->
    ~ In (PID r) seen /\
    exists l1 l2, data = l1 ++ r :: l2 /\ ~ In (PID r) (map PID l1).
Proof.
  induction data as [|a data IH]; intros seen r Hr; simpl in Hr.
  - destruct Hr.
  - destruct (in_dec Pid_eq_dec (PID a) seen) as [Ha|Ha].
    + destruct (IH seen r Hr) as (Hseen & l1 & l2 & -> & Hl1).
      split; [exact Hseen|]. exists (a :: l1), l2. split; [reflexivity|].
      simpl. intros [He|H]; [|tauto]. rewrite He in Ha. tauto.
    + destruct Hr as [<-|Hr].
      * split; [exact Ha|]. exists [], data. simpl. tauto.
      * destruct (IH (PID a :: seen) r Hr) as (Hseen & l1 & l2 & -> & Hl1).
        simpl in Hseen. split; [tauto|].
        exists (a :: l1), l2. split; [reflexivity|]. simpl. tauto.
Qed.

Lemma drop_duplicates_PID_flat (df : DataFrame) :
  columns df = flat_columns ->
  drop_duplicates_PID df = inr (mkFrame flat_columns (keep_first [] (rows df))).
Proof.
  intros Hc. destruct df as [c data]. simpl in Hc. subst c.
  unfold drop_duplicates_PID. cbn [rows columns].
  destruct data as [|r data]; [reflexivity|].
  rewrite get_column_flat by (reflexivity || (simpl; tauto)).
  cbn [bind Result_Monad ret rows].
  now rewrite drop_marked_duplicated.
Qed.

(** X3. On a flat table [drop_duplicates(subset=["PID"])] succeeds and
    keeps, in their order, exactly the rows that are the first of their
    pid: the result has every pid of the table once. *)
Theorem drop_duplicates_keeps_first_rows :
  forall df : DataFrame,
    columns df = flat_columns ->
    exists unique_posts,
      drop_duplicates_PID df = inr unique_posts /\
      columns unique_posts = columns df /\
      subsequence (rows unique_posts) (rows df) /\
      NoDup (map PID (rows unique_posts)) /\
      (forall x, In x (map PID (rows unique_posts)) <->
                 In x (map PID (rows df))) /\
      (forall r, In r (rows unique_posts) ->
         exists l1 l2, rows df = l1 ++ r :: l2 /\
                       ~ In (PID r) (map PID l1)).
Proof.
  intros df Hc. rewrite (drop_duplicates_PID_flat df Hc).
  eexists. split; [reflexivity|]. simpl.
  split; [now rewrite Hc|]. split; [apply keep_first_subsequence|].
  split; [apply keep_first_NoDup|]. split.
  - intros x. rewrite keep_first_pids. simpl. tauto.
  - intros r Hr. now apply keep_first_is_first in Hr.
Qed.

(** ** The global total against the plain sum *)

Lemma prepare_rows_downloads (results : list ResultRecord) :
  map PostDownloads (prepare_rows results) =
  map post_downloads (all_posts results).
Proof.
  rewrite prepare_rows_flat_map. unfold all_posts.
  induction results as [|R results IH]; simpl; [reflexivity|].
  rewrite !map_app, IH, map_map. reflexivity.
Qed.

Lemma prepare_rows_pids (results : list ResultRecord) :
  map PID (prepare_rows results) = map post_pid (all_posts results).
Proof.
  rewrite prepare_rows_flat_map. unfold all_posts.
  induction results as [|R results IH]; simpl; [reflexivity|].
  rewrite !map_app, IH, map_map. reflexivity.
Qed.

Lemma keep_first_all (data : list FlatRow) :
  forall seen,
    NoDup (map PID data) ->
    (forall x, In x (map PID data) -> ~ In x seen) ->
    keep_first seen data = data.
Proof.
  induction data as [|r data IH]; intros seen Hnd Hseen; simpl; [reflexivity|].
  simpl in Hnd, Hseen. inversion Hnd as [|x l Hx Hl]; subst.
  destruct (in_dec Pid_eq_dec (PID r) seen) as [Hr|Hr].
  - exfalso. apply (Hseen (PID r)); tauto.
  - f_equal. apply IH; [exact Hl|].
    intros x Hin [<-|Hs]; [contradiction|]. apply (Hseen x); tauto.
Qed.

Lemma subsequence_sum (f : FlatRow -> Z) (l1 l2 : list FlatRow) :
  subsequence l1 l2 ->
  (forall r, In r l2 -> (0 <= f r)%Z) ->
  (0 <= column_sum (map f l1) <= column_sum (map f l2))%Z.
Proof.
  induction 1 as [|x l1 l2 Hsub IH|x l1 l2 Hsub IH]; intros Hpos; simpl.
  - unfold column_sum. simpl. lia.
  - rewrite !column_sum_cons.
    assert (0 <= f x)%Z by (apply Hpos; simpl; tauto).
    assert (0 <= column_sum (map f l1) <= column_sum (map f l2))%Z
      by (apply IH; intros r Hr; apply Hpos; simpl; tauto).
    lia.
  - rewrite column_sum_cons.
    assert (0 <= f x)%Z by (apply Hpos; simpl; tauto).
    assert (0 <= column_sum (map f l1) <= column_sum (map f l2))%Z
      by (apply IH; intros r Hr; apply Hpos; simpl; tauto).
    lia.
Qed.

Lemma total_downloads_of_keep_first (data : list FlatRow) :
  total_downloads_of data =
  column_sum (map PostDownloads (keep_first [] data)).
Proof. unfold total_downloads_of. now rewrite drop_marked_duplicated. Qed.

Lemma column_sum_member (values : list Z) (x : Z) :
  (forall v, In v values -> (0 <= v)%Z) -> In x values ->
  (0 <= x <= column_sum values)%Z.
Proof.
  induction values as [|v values IH]; intros Hpos Hx; [destruct Hx|].
  rewrite column_sum_cons.
  assert (0 <= v)%Z by (apply Hpos; simpl; tauto).
  assert (0 <= column_sum values)%Z.
  { clear IH Hx. induction values as [|w values IHv].
    - unfold column_sum. simpl. lia.
    - rewrite column_sum_cons.
      assert (0 <= w)%Z by (apply Hpos; simpl; tauto).
      assert (0 <= column_sum values)%Z
        by (apply IHv; intros u Hu; apply Hpos; simpl in *; tauto).
      lia. }
  destruct Hx as [<-|Hx]; [lia|].
  assert (0 <= x <= column_sum values)%Z
    by (apply IH; [intros u Hu; apply Hpos; simpl; tauto|exact Hx]).
  lia.
Qed.

Lemma prepare_rows_range (results : list ResultRecord) (P : Z -> Prop) :
  (forall p, In p (all_posts results) -> P (post_downloads p)) ->
  forall r, In r (rows (prepare_data results)) -> P (PostDownloads r).
Proof.
  intros H r Hr. unfold prepare_data in Hr. rewrite rows_pd_DataFrame in Hr.
  apply prepare_rows_In in Hr as (R & p & HR & Hp & ->). simpl.
  apply H. unfold all_posts. apply in_flat_map. eauto.
Qed.

(** X4. When the post downloads all fit in int64 and no two posts of the
    document share a pid, nothing is dropped: the total of the global
    summary is the sum of the downloads of all the posts, reduced modulo
    2^64 into the int64 range, hence that very sum when it fits. *)
Theorem distinct_pids_total_is_plain_sum :
  forall results : list ResultRecord,
    rows (prepare_data results) <> [] ->
    NoDup (map post_pid (all_posts results)) ->
    (forall p, In p (all_posts results) ->
               (int64_min <= post_downloads p <= int64_max)%Z) ->
    global_summary (prepare_data results) =
      inr (nunique (map Translator (rows (prepare_data results))),
           wrap_int64 (plain_total results)) /\
    ((int64_min <= plain_total results <= int64_max)%Z ->
     global_summary (prepare_data results) =
       inr (nunique (map Translator (rows (prepare_data results))),
            plain_total results)).
Proof.
  intros results Hrows Hnd Hfit.
  assert (Hsum : global_summary (prepare_data results) =
            inr (nunique (map Translator (rows (prepare_data results))),
                 wrap_int64 (plain_total results))).
  { rewrite (global_summary_flat _ (prepare_data_columns _ Hrows)).
    rewrite reported_total_int64
      by (apply (prepare_rows_range results
                   (fun v => (int64_min <= v <= int64_max)%Z) Hfit)).
    f_equal. f_equal. f_equal.
    unfold prepare_data. rewrite rows_pd_DataFrame.
    rewrite total_downloads_of_keep_first, keep_first_all.
    - unfold plain_total. now rewrite prepare_rows_downloads.
    - now rewrite prepare_rows_pids.
    - intros x _ []. }
  split; [exact Hsum|].
  intros Hsmall. rewrite Hsum. now rewrite wrap_int64_small.
Qed.

(** X5. When no post has negative downloads and the sum of the downloads of
    all the posts fits in int64, the total of the global summary lies
    between zero and that sum: deduplication can only lower it. *)
Theorem deduplicated_total_bounds :
  forall results : list ResultRecord,
    rows (prepare_data results) <> [] ->
    (forall p, In p (all_posts results) -> (0 <= post_downloads p)%Z) ->
    (plain_total results <= int64_max)%Z ->
    exists total_translators total_downloads,
      global_summary (prepare_data results) =
        inr (total_translators, total_downloads) /\
      (0 <= total_downloads <= plain_total results)%Z.
Proof.
  intros results Hrows Hpos Hfit.
  assert (Hbound : (0 <= total_downloads_of (rows (prepare_data results))
                      <= plain_total results)%Z).
  { unfold prepare_data. rewrite rows_pd_DataFrame.
    rewrite total_downloads_of_keep_first.
    unfold plain_total. rewrite <- prepare_rows_downloads.
    apply subsequence_sum; [apply keep_first_subsequence|].
    intros r Hr. apply prepare_rows_In in Hr as (R & p & HR & Hp & ->).
    simpl. apply Hpos. unfold all_posts. apply in_flat_map. eauto. }
  rewrite (global_summary_flat _ (prepare_data_columns _ Hrows)).
  rewrite reported_total_int64.
  - eexists. eexists. split; [reflexivity|].
    rewrite wrap_int64_small; [exact Hbound|].
    unfold int64_min, int64_max in *. lia.
  - apply (prepare_rows_range results
             (fun v => (int64_min <= v <= int64_max)%Z)).
    intros p Hp.
    assert (0 <= post_downloads p <= plain_total results)%Z.
    { unfold plain_total. apply column_sum_member.
      - intros v Hv. apply in_map_iff in Hv as (q & <- & Hq). auto.
      - now apply in_map. }
    unfold int64_min, int64_max in *. lia.
Qed.

(** ** More on the search box *)






(** ** The selected translator, and runs without posts *)

Lemma selectbox_run (label : string) (options : list string) (pick : nat) :
  selectbox label options pick =
    ([st_sidebar_selectbox label options],
     inr (match options with
          | [] => None
          | first :: _ => Some (nth pick options first)
          end)).
Proof. reflexivity. Qed.

Lemma selectbox_In (options : list string) (pick : nat) (name : string) :
  match options with
  | [] => None
  | first :: _ => Some (nth pick options first)
  end = Some name ->
  In name options.
Proof.
  destruct options as [|first options']; [discriminate|].
  remember (first :: options') as options eqn:E.
  intros H. injection H as <-.
  destruct (Nat.lt_ge_cases pick (List.length options)) as [Hlt|Hge].
  - now apply nth_In.
  - rewrite nth_overflow by exact Hge. subst options. simpl. tauto.
Qed.

Lemma selector_options_incl (search_term : string) (translators : list string)
    (name : string) :
  In name (selector_options search_term translators) -> In name translators.
Proof.
  unfold selector_options, matching_translators.
  destruct (str_bool search_term); [|tauto].
  intros H. now apply filter_In in H.
Qed.

Lemma group_of_nonempty (data : list FlatRow) (name : string) :
  In name (map Translator data) ->
  exists r rest, group_of name data = r :: rest.
Proof.
  intros H. apply in_map_iff in H as (r0 & Hname & Hin).
  destruct (group_of name data) as [|r rest] eqn:E; [|eauto].
  assert (Hr0 : In r0 (group_of name data)) by (apply group_of_In; tauto).
  rewrite E in Hr0. destruct Hr0.
Qed.

Section Runs.

Variable sort_values : list GroupRow -> list GroupRow.
Hypothesis sort_values_contract : sorts_by_total_desc sort_values.

Lemma main_without_rows (R : ResultRecord) (results : list ResultRecord)
    (search_term : string) (pick : nat) :
  rows (prepare_data (R :: results)) = [] ->
  main sort_values (FileJson (R :: results)) search_term pick =
    (header ++ sidebar_head, inl (KeyError "Translator")).
Proof.
  intros Hrows.
  pose proof (translator_table_no_columns sort_values _
                (prepare_data_no_rows _ Hrows)) as Htable.
  unfold main, emit, load_results, lift.
  change (@ret UI UI_Monad (list ResultRecord) (R :: results))
    with (([] : list UiEvent, inr (R :: results) : Result (list ResultRecord))).
  rewrite !UI_bind_value. cbv beta iota. rewrite Htable. reflexivity.
Qed.

(** X8. On a document that has records but no post at all, the run draws
    the page header, the sidebar title and the search box, and then stops
    on [KeyError('Translator')]: no selector, no table, no summary. *)
Theorem run_without_posts_stops_at_groupby :
  forall (results : list ResultRecord) (search_term : string) (pick : nat),
    results <> [] ->
    (forall R, In R results -> res_posts R = []) ->
    main sort_values (FileJson results) search_term pick =
      (header ++ sidebar_head, inl (KeyError "Translator")).
Proof.
  intros [|R results] search_term pick Hne Hposts; [congruence|].
  apply main_without_rows. unfold prepare_data.
  rewrite rows_pd_DataFrame. now apply prepare_rows_nil.
Qed.

Lemma prepare_rows_first (l : list ResultRecord) (r : FlatRow) (rest : list FlatRow) :
  prepare_rows l = r :: rest ->
  exists skipped R later p,
    l = skipped ++ R :: later /\
    (forall S, In S skipped -> res_posts S = []) /\
    In p (res_posts R) /\ res_posts R <> [] /\ r = row_of R p.
Proof.
  rewrite prepare_rows_flat_map.
  induction l as [|R l IH]; simpl; [discriminate|].
  destruct (res_posts R) as [|p ps] eqn:Hp; simpl.
  - intros H. destruct (IH H) as (skipped & R' & later & p' & -> & Hs & Hin & Hne & ->).
    exists (R :: skipped), R', later, p'. simpl. repeat split; auto.
    intros S [<-|HS]; auto.
  - intros H. injection H as <- _.
    exists [], R, l, p. simpl. rewrite Hp. repeat split; simpl; auto.
    + tauto.
    + discriminate.
Qed.

(** X11. Whatever the search term and the choice made, the translator the
    selector returns has at least one row in the flat table, so that
    [iloc[0]] finds one: the selected rows are the posts of the records of
    that name, and the "Total Downloads" read from the first of them is
    the downloads field of the first record of that name that has a
    post. *)
Theorem overview_reads_first_record :
  forall (results : list ResultRecord) (search_term label : string)
         (pick : nat) (table : list LeaderRow) (name : string),
    translator_table sort_values (prepare_data results) = inr table ->
    snd (selectbox label
           (selector_options search_term (map lb_Translator table)) pick)
      = inr (Some name) ->
    exists data totals skipped R later,
      select_translator (prepare_data results) (Some name) = inr data /\
      rows data = rows (prepare_data (records_of name results)) /\
      get_column data "Total Downloads" TotalDownloads = inr totals /\
      iloc0 totals = inr (res_downloads R) /\
      records_of name results = skipped ++ R :: later /\
      (forall S, In S skipped -> res_posts S = []) /\
      res_posts R <> [].
Proof.
  intros results search_term label pick table name Htable Hsel.
  rewrite selectbox_run in Hsel. simpl snd in Hsel. injection Hsel as Hsel.
  apply selectbox_In in Hsel. apply selector_options_incl in Hsel.
  assert (Hin : In name (map Translator (rows (prepare_data results)))).
  { apply group_keys_In.
    now apply (Permutation_in _
                 (Permutation_sym
                    (translator_table_names sort_values sort_values_contract
                       _ _ Htable))). }
  assert (Hrows : rows (prepare_data results) <> []).
  { intros Hnil. rewrite Hnil in Hin. destruct Hin. }
  pose proof (prepare_data_columns _ Hrows) as Hc.
  assert (Hgroup : group_of name (rows (prepare_data results)) =
                   rows (prepare_data (records_of name results))).
  { unfold prepare_data. rewrite !rows_pd_DataFrame.
    apply group_of_prepare_rows. }
  destruct (group_of_nonempty _ _ Hin) as (r & rest & Hg).
  pose proof Hg as Hg'. rewrite Hgroup in Hg'.
  unfold prepare_data in Hg'. rewrite rows_pd_DataFrame in Hg'.
  destruct (prepare_rows_first _ _ _ Hg')
    as (skipped & R & later & p & Hsplit & Hskipped & _ & Hne & ->).
  exists (mkFrame flat_columns (group_of name (rows (prepare_data results)))),
         (map TotalDownloads (group_of name (rows (prepare_data results)))),
         skipped, R, later.
  split; [apply (select_translator_flat _ _ Hc)|].
  split; [exact Hgroup|].
  split; [apply get_column_flat; [reflexivity|simpl; tauto]|].
  split; [now rewrite Hg|]. auto.
Qed.

(** X12. The "Total Downloads" of the overview is read from the first row
    of the selected translator while the leaderboard takes the maximum: the
    overview figure never exceeds the leaderboard's figure for the same
    translator, and the two agree when the records of one translator carry
    the same downloads. *)
Theorem overview_total_below_leaderboard :
  forall (results : list ResultRecord) (table : list LeaderRow)
         (row : LeaderRow) (data : DataFrame) (totals : list Z) (v : Z),
    translator_table sort_values (prepare_data results) = inr table ->
    In row table ->
    select_translator (prepare_data results) (Some (lb_Translator row))
      = inr data ->
    get_column data "Total Downloads" TotalDownloads = inr totals ->
    iloc0 totals = inr v ->
    (v <= lb_TotalDownloads row)%Z /\
    ((forall R R', In R results -> In R' results ->
        res_translator R = res_translator R' ->
        res_downloads R = res_downloads R') ->
     v = lb_TotalDownloads row).
Proof.
  intros results table row data totals v Htable Hrow Hdata Htotals Hv.
  assert (Hc : columns (prepare_data results) = flat_columns).
  { destruct (rows (prepare_data results)) eqn:Hrows.
    - rewrite translator_table_no_columns in Htable; [discriminate|].
      now apply prepare_data_no_rows.
    - apply prepare_data_columns. congruence. }
  rewrite (select_translator_flat _ _ Hc) in Hdata. injection Hdata as <-.
  rewrite get_column_flat in Htotals by (reflexivity || (simpl; tauto)).
  injection Htotals as <-. simpl rows in Hv.
  destruct (group_of (lb_Translator row) (rows (prepare_data results)))
    as [|r rest] eqn:Hg; [discriminate|].
  simpl in Hv. injection Hv as <-.
  assert (Hr : In r (rows (prepare_data results)) /\
               Translator r = lb_Translator row).
  { apply group_of_In. rewrite Hg. simpl. tauto. }
  destruct Hr as [Hr Hn].
  destruct (translator_table_row sort_values sort_values_contract _ _ _
              Htable Hrow) as [_ [(r' & Hr' & Hn' & Hv') Hmax]].
  split; [now apply Hmax|].
  intros Hagree. rewrite <- Hv'.
  unfold prepare_data in Hr, Hr'. rewrite rows_pd_DataFrame in Hr, Hr'.
  apply prepare_rows_In in Hr as (R & p & HR & Hp & ->).
  apply prepare_rows_In in Hr' as (R' & p' & HR' & Hp' & ->).
  simpl in *. apply Hagree; congruence.
Qed.

Lemma assign_index_totals (l : list GroupRow) :
  map lb_TotalDownloads (assign_index l) = map g_TotalDownloads l.
Proof.
  unfold assign_index. rewrite map_map. simpl.
  rewrite <- (map_map snd g_TotalDownloads). now rewrite combine_seq_snd.
Qed.

(** X13. The first row of the leaderboard has display index 1 and the
    largest total of the whole flat table, and it is the translator the
    selector returns when nothing is searched and nothing is picked. *)
Theorem leaderboard_top_has_largest_total :
  forall (results : list ResultRecord) (top : LeaderRow)
         (others : list LeaderRow),
    translator_table sort_values (prepare_data results) = inr (top :: others) ->
    lb_Index top = 1%nat /\
    (forall row, In row others ->
                 (lb_TotalDownloads row <= lb_TotalDownloads top)%Z) /\
    (forall r, In r (rows (prepare_data results)) ->
               (TotalDownloads r <= lb_TotalDownloads top)%Z) /\
    snd (selectbox "Select a Translator"
           (selector_options EmptyString (map lb_Translator (top :: others))) 0)
      = inr (Some (lb_Translator top)).
Proof.
  intros results top others Htable.
  pose proof (translator_table_inv sort_values _ _ Htable) as Hinv.
  destruct sort_values_contract as [_ Hsorted].
  set (sorted := sort_values
                   (map (aggregate_max (rows (prepare_data results)))
                        (group_keys (rows (prepare_data results))))) in *.
  assert (Hss : StronglySorted desc_total sorted).
  { apply Sorted_StronglySorted; [|apply Hsorted].
    intros a b c. unfold desc_total. lia. }
  assert (Hothers : forall row, In row others ->
            (lb_TotalDownloads row <= lb_TotalDownloads top)%Z).
  { pose proof (assign_index_totals sorted) as Htot.
    rewrite <- Hinv in Htot.
    destruct sorted as [|g gs]; [discriminate|]. simpl in Htot.
    injection Htot as Htop Hrest.
    inversion Hss as [|? ? _ Hall]; subst.
    intros row Hin. apply (in_map lb_TotalDownloads) in Hin.
    rewrite Hrest in Hin. apply in_map_iff in Hin as (g' & <- & Hg').
    rewrite Forall_forall in Hall. rewrite Htop. now apply Hall. }
  split; [|split; [exact Hothers|split; [|reflexivity]]].
  - pose proof (assign_index_Index sorted) as Hidx. rewrite <- Hinv in Hidx.
    destruct sorted; [discriminate|]. simpl in Hidx. now injection Hidx.
  - intros r Hr.
    assert (Hname : In (Translator r) (map lb_Translator (top :: others))).
    { apply (Permutation_in _
               (translator_table_names sort_values
                  (conj (proj1 sort_values_contract) Hsorted) _ _ Htable)).
      apply group_keys_In. now apply in_map. }
    apply in_map_iff in Hname as (row & Hrow & Hin).
    destruct (translator_table_row sort_values
                (conj (proj1 sort_values_contract) Hsorted) _ _ _ Htable Hin)
      as [_ [_ Hmax]].
    specialize (Hmax r Hr (eq_sym Hrow)).
    destruct Hin as [<-|Hin]; [exact Hmax|].
    specialize (Hothers row Hin). lia.
Qed.

End Runs.

(** ** The post-level table *)

(** X14. The post-level table numbers the rows of the selected translator
    1, 2, ... in the order they have in the flat table, and shows their
    title, downloads and pid unchanged. *)
Theorem post_table_numbers_posts :
  forall data : DataFrame,
    map pr_Index (post_table data) = seq 1 (List.length (rows data)) /\
    map (fun row => (pr_Title row, pr_Downloads row, pr_PostID row))
        (post_table data) =
    map (fun r => (PostTitle r, PostDownloads r, PID r)) (rows data).
Proof.
  intros data. unfold post_table. rewrite !map_map. simpl. split.
  - change (fun x : nat * FlatRow => fst x) with (@fst nat FlatRow).
    apply combine_seq_fst.
  - rewrite <- (map_map snd (fun r => (PostTitle r, PostDownloads r, PID r))).
    now rewrite combine_seq_snd.
Qed.

(** ** The order of the records *)

Lemma nunique_same_values (l l' : list string) :
  (forall x, In x l <-> In x l') -> nunique l = nunique l'.
Proof.
  intros H. unfold nunique. apply Nat.le_antisymm;
    (apply NoDup_incl_length; [apply unique_NoDup|]);
    intros x Hx; apply unique_In in Hx; apply unique_In; simpl;
    (split; [apply H; tauto|tauto]).
Qed.

Lemma group_max_of_same_rows (d d' : list FlatRow) (name : string)
    (f : FlatRow -> Z) (m : Z) :
  (forall r, In r d <-> In r d') ->
  group_max_of d name f m -> group_max_of d' name f m.
Proof.
  intros H [(r & Hr & Hn & Hv) Hmax]. split.
  - exists r. split; [now apply H|tauto].
  - intros r' Hr' Hn'. apply Hmax; [now apply H|exact Hn'].
Qed.

Lemma group_max_of_unique (d : list FlatRow) (name : string)
    (f : FlatRow -> Z) (m m' : Z) :
  group_max_of d name f m -> group_max_of d name f m' -> m = m'.
Proof.
  intros [(r & Hr & Hn & Hv) Hmax] [(r' & Hr' & Hn' & Hv') Hmax'].
  specialize (Hmax r' Hr' Hn'). specialize (Hmax' r Hr Hn). lia.
Qed.

Lemma prepare_rows_Permutation (results results' : list ResultRecord) :
  Permutation results results' ->
  forall r, In r (prepare_rows results) <-> In r (prepare_rows results').
Proof.
  intros Hperm r. rewrite !prepare_rows_In.
  split; intros (R & p & HR & Hp & Hr); exists R, p; repeat split; auto.
  - now apply (Permutation_in _ Hperm).
  - now apply (Permutation_in _ (Permutation_sym Hperm)).
Qed.

Section RecordOrder.

Variable sort_values : list GroupRow -> list GroupRow.
Hypothesis sort_values_contract : sorts_by_total_desc sort_values.

Lemma leaderboard_entries_transfer (df df' : DataFrame)
    (table table' : list LeaderRow) :
  (forall r, In r (rows df) <-> In r (rows df')) ->
  translator_table sort_values df = inr table ->
  translator_table sort_values df' = inr table' ->
  forall row, In row table ->
    exists row', In row' table' /\
                 lb_Translator row' = lb_Translator row /\
                 lb_Rank row' = lb_Rank row /\
                 lb_TotalDownloads row' = lb_TotalDownloads row.
Proof.
  intros Hsame Htable Htable' row Hrow.
  destruct (translator_table_row sort_values sort_values_contract _ _ _
              Htable Hrow) as [Hrank Htotal].
  assert (Hname : In (lb_Translator row) (map lb_Translator table')).
  { apply (Permutation_in _
             (translator_table_names sort_values sort_values_contract
                _ _ Htable')).
    apply group_keys_In.
    destruct Hrank as [(r & Hr & Hn & _) _].
    apply in_map_iff. exists r. split; [exact Hn|now apply Hsame]. }
  apply in_map_iff in Hname as (row' & Hn' & Hin').
  exists row'. split; [exact Hin'|]. split; [exact Hn'|].
  destruct (translator_table_row sort_values sort_values_contract _ _ _
              Htable' Hin') as [Hrank' Htotal'].
  rewrite Hn' in Hrank', Htotal'.
  split.
  - eapply group_max_of_unique; [exact Hrank'|].
    eapply group_max_of_same_rows; [exact Hsame|exact Hrank].
  - eapply group_max_of_unique; [exact Htotal'|].
    eapply group_max_of_same_rows; [exact Hsame|exact Htotal].
Qed.

(** X15. Reordering the records of the document changes neither the
    entries of the leaderboard (name, rank and total of each row; only
    the order among equal totals and thus the display index can change)
    nor the number of distinct translators of the summary. *)
Theorem record_order_keeps_leaderboard_entries :
  forall (results results' : list ResultRecord) (table : list LeaderRow),
    Permutation results results' ->
    translator_table sort_values (prepare_data results) = inr table ->
    exists table',
      translator_table sort_values (prepare_data results') = inr table' /\
      List.length table' = List.length table /\
      (forall name rank total,
          (exists row, In row table /\ lb_Translator row = name /\
                       lb_Rank row = rank /\ lb_TotalDownloads row = total) <->
          (exists row', In row' table' /\ lb_Translator row' = name /\
                        lb_Rank row' = rank /\ lb_TotalDownloads row' = total)) /\
      exists n d d',
        global_summary (prepare_data results) = inr (n, d) /\
        global_summary (prepare_data results') = inr (n, d').
Proof.
  intros results results' table Hperm Htable.
  assert (Hsame : forall r, In r (rows (prepare_data results)) <->
                            In r (rows (prepare_data results'))).
  { intros r. unfold prepare_data. rewrite !rows_pd_DataFrame.
    now apply prepare_rows_Permutation. }
  assert (Hrows : rows (prepare_data results) <> []).
  { intros Hnil. rewrite translator_table_no_columns in Htable;
      [discriminate|]. now apply prepare_data_no_rows. }
  assert (Hrows' : rows (prepare_data results') <> []).
  { destruct (rows (prepare_data results)) as [|r l] eqn:E; [congruence|].
    intros Hnil. assert (H : In r (rows (prepare_data results')))
      by (apply Hsame; simpl; tauto).
    rewrite Hnil in H. destruct H. }
  destruct (translator_table_spec sort_values sort_values_contract _
              (prepare_data_columns _ Hrows')) as (table' & Htable' & _).
  assert (Hnames : forall x,
            In x (map Translator (rows (prepare_data results))) <->
            In x (map Translator (rows (prepare_data results')))).
  { intros x. rewrite !in_map_iff.
    split; intros (r & Hn & Hr); exists r; (split; [exact Hn|]);
      now apply Hsame. }
  assert (Hcount : nunique (map Translator (rows (prepare_data results))) =
                   nunique (map Translator (rows (prepare_data results'))))
    by now apply nunique_same_values.
  exists table'. split; [exact Htable'|]. split; [|split].
  - rewrite <- !group_keys_length in Hcount.
    rewrite <- (length_map lb_Translator table'),
            <- (length_map lb_Translator table).
    rewrite <- (Permutation_length
                  (translator_table_names sort_values sort_values_contract
                     _ _ Htable')),
            <- (Permutation_length
                  (translator_table_names sort_values sort_values_contract
                     _ _ Htable)).
    now symmetry.
  - intros name rank total. split.
    + intros (row & Hrow & <- & <- & <-).
      now apply (leaderboard_entries_transfer (prepare_data results)
                   (prepare_data results') table table' Hsame).
    + intros (row & Hrow & <- & <- & <-).
      apply (leaderboard_entries_transfer (prepare_data results')
               (prepare_data results) table' table); auto.
      intros r. symmetry. apply Hsame.
  - rewrite (global_summary_flat _ (prepare_data_columns _ Hrows)),
            (global_summary_flat _ (prepare_data_columns _ Hrows')).
    rewrite Hcount. eauto.
Qed.

End RecordOrder.

(** ** Worked inputs for the further properties *)

Lemma selected_translator_rows_witness :
  rows (prepare_data merged_input) <> [] /\
  exists data,
    select_translator (prepare_data merged_input) (Some "A") = inr data /\
    rows data = rows (prepare_data (records_of "A" merged_input)) /\
    List.length (rows data) =
      list_sum (map (fun R => List.length (res_posts R))
                    (records_of "A" merged_input)).
Proof.
  split; [discriminate|].
  apply (selected_translator_rows merged_input "A"). discriminate.
Defined.

Lemma drop_duplicates_keeps_first_rows_witness :
  columns (mkFrame flat_columns conflicting_rows) = flat_columns /\
  exists unique_posts,
    drop_duplicates_PID (mkFrame flat_columns conflicting_rows)
      = inr unique_posts /\
    subsequence (rows unique_posts) conflicting_rows /\
    NoDup (map PID (rows unique_posts)).
Proof.
  split; [reflexivity|].
  destruct (drop_duplicates_keeps_first_rows
              (mkFrame flat_columns conflicting_rows) eq_refl)
    as (unique_posts & Heq & _ & Hsub & Hnd & _).
  exists unique_posts. repeat split; assumption.
Defined.

Lemma distinct_pids_total_is_plain_sum_witness :
  rows (prepare_data merged_input) <> [] /\
  NoDup (map post_pid (all_posts merged_input)) /\
  global_summary (prepare_data merged_input) =
    inr (nunique (map Translator (rows (prepare_data merged_input))),
         plain_total merged_input).
Proof.
  assert (Hnd : NoDup (map post_pid (all_posts merged_input))).
  { repeat constructor; simpl; intuition discriminate. }
  split; [discriminate|]. split; [exact Hnd|].
  apply (distinct_pids_total_is_plain_sum merged_input);
    [discriminate|exact Hnd| |split; discriminate].
  intros p [<-|[<-|[<-|[<-|[]]]]]; split; discriminate.
Defined.

Lemma deduplicated_total_bounds_witness :
  rows (prepare_data shared_pid_input) <> [] /\
  exists total_translators total_downloads,
    global_summary (prepare_data shared_pid_input) =
      inr (total_translators, total_downloads) /\
    (0 <= total_downloads <= plain_total shared_pid_input)%Z.
Proof.
  split; [discriminate|].
  apply (deduplicated_total_bounds shared_pid_input);
    [discriminate| |discriminate].
  intros p Hp. simpl in Hp.
  destruct Hp as [<-|[<-|[<-|[]]]]; simpl; lia.
Defined.


Lemma run_without_posts_stops_at_groupby_witness :
  [mkResult 1 "A" 100 []] <> [] /\
  main stable_sort_values (FileJson [mkResult 1 "A" 100 []]) "a" 0 =
    (header ++ sidebar_head, inl (KeyError "Translator")).
Proof.
  split; [discriminate|].
  apply (run_without_posts_stops_at_groupby stable_sort_values
           [mkResult 1 "A" 100 []] "a" 0); [discriminate|].
  intros R [<-|[]]. reflexivity.
Defined.

Lemma overview_reads_first_record_witness :
  sorts_by_total_desc stable_sort_values /\
  exists data totals skipped R later,
    select_translator (prepare_data merged_input) (Some "A") = inr data /\
    rows data = rows (prepare_data (records_of "A" merged_input)) /\
    get_column data "Total Downloads" TotalDownloads = inr totals /\
    iloc0 totals = inr (res_downloads R) /\
    records_of "A" merged_input = skipped ++ R :: later /\
    (forall S, In S skipped -> res_posts S = []) /\
    res_posts R <> [].
Proof.
  split; [exact stable_sort_values_contract|].
  apply (overview_reads_first_record stable_sort_values
           stable_sort_values_contract merged_input "a" "Matching Translators"
           0 [mkLeader 1 1 "B" 80; mkLeader 2 3 "A" 70] "A").
  - reflexivity.
  - vm_compute. reflexivity.
Defined.

Lemma overview_total_below_leaderboard_witness :
  sorts_by_total_desc stable_sort_values /\
  translator_table stable_sort_values (prepare_data merged_input) =
    inr [mkLeader 1 1 "B" 80; mkLeader 2 3 "A" 70] /\
  (50 <= lb_TotalDownloads (mkLeader 2 3 "A" 70))%Z.
Proof.
  split; [exact stable_sort_values_contract|]. split; [reflexivity|].
  apply (proj1 (overview_total_below_leaderboard stable_sort_values
                  stable_sort_values_contract merged_input
                  [mkLeader 1 1 "B" 80; mkLeader 2 3 "A" 70]
                  (mkLeader 2 3 "A" 70)
                  (mkFrame flat_columns
                     (group_of "A" (rows (prepare_data merged_input))))
                  [50%Z; 70%Z; 70%Z] 50%Z
                  eq_refl (or_intror (or_introl eq_refl))
                  eq_refl eq_refl eq_refl)).
Defined.

Lemma leaderboard_top_has_largest_total_witness :
  sorts_by_total_desc stable_sort_values /\
  lb_Index (mkLeader 1 1 "B" 80) = 1%nat /\
  (forall r, In r (rows (prepare_data merged_input)) ->
             (TotalDownloads r <= 80)%Z).
Proof.
  split; [exact stable_sort_values_contract|].
  destruct (leaderboard_top_has_largest_total stable_sort_values
              stable_sort_values_contract merged_input
              (mkLeader 1 1 "B" 80) [mkLeader 2 3 "A" 70] eq_refl)
    as (Hidx & _ & Hmax & _).
  split; [exact Hidx|exact Hmax].
Defined.

Lemma record_order_keeps_leaderboard_entries_witness :
  sorts_by_total_desc stable_sort_values /\
  Permutation merged_input (rev merged_input) /\
  exists table',
    translator_table stable_sort_values (prepare_data (rev merged_input))
      = inr table' /\
    List.length table' = 2%nat.
Proof.
  split; [exact stable_sort_values_contract|].
  assert (Hperm : Permutation merged_input (rev merged_input))
    by apply Permutation_rev.
  split; [exact Hperm|].
  destruct (record_order_keeps_leaderboard_entries stable_sort_values
              stable_sort_values_contract merged_input (rev merged_input)
              [mkLeader 1 1 "B" 80; mkLeader 2 3 "A" 70] Hperm eq_refl)
    as (table' & Htable' & Hlen & _).
  exists table'. split; [exact Htable'|exact Hlen].
Defined.

